(** * NeverMiss Lite: the reminder store, the parse pipeline and the
      dashboard helpers of [streamlit_app.py]

    The application keeps its reminders in one comma-separated file that
    it reads with [pandas.read_csv] and rewrites with [DataFrame.to_csv].
    This development embeds the functions of [streamlit_app.py] and
    proves what they do.

    What belongs to Python and to pandas is modelled as follows.
    - A cell of a data frame is a [value]: Python's [None], the missing
      marker [NaN], an integer or a text.
    - The file is a table of field texts.  Quoting is a bijection
      between a field's text and what is written for it, so the model
      works on the texts.
    - [read_csv] turns the empty field and the other default missing
      value tokens into [NaN], and infers the type of a column: a column
      in which every field that is not missing is an integer literal is
      numeric, the other columns hold text.  pandas knows more kinds of
      column: it reads a column of literals with a fraction or an
      exponent as floating point numbers, a column of [True] and [False]
      as truth values, and the integers beside a missing field as
      floating point numbers, which it writes with a fraction.  The model
      keeps such literals as their text and such integers as integers;
      the statements that depend on how a cell is read are made for the
      cells and the columns that pandas reads as the model does
      ([Csv.kept_text], [Csv.faithful_col]).
    - White space is the white space of ASCII.
    - The calls to the completion endpoint, [json.loads],
      [datetime.fromisoformat] and [pandas.to_datetime] are parameters
      of the sections that use them.  The sort inside [sort_values] is a
      parameter too, except where the order of the dashboard is proved:
      there it is an insertion sort. *)

From Stdlib Require Import ZArith List String Ascii Bool Lia.
From Stdlib Require Import DecimalString Decimal DecimalZ DecimalPos.
From Stdlib Require Import Permutation Sorted QArith FinFun.
Import ListNotations.
Local Open Scope string_scope.
Local Open Scope Z_scope.
Local Open Scope list_scope.

Set Warnings "-register-all".

(** ** Python strings *)

Module PyStr.

(** [str.isspace] on the ASCII range. *)
Definition isspace (c : ascii) : bool :=
  let n := nat_of_ascii c in
  (((9 <=? n) && (n <=? 13)) || ((28 <=? n) && (n <=? 32)))%nat.

Fixpoint lstrip_chars (l : list ascii) : list ascii :=
  match l with
  | [] => []
  | c :: l' => if isspace c then lstrip_chars l' else l
  end.

(** [s.strip()] *)
Definition strip (s : string) : string :=
  string_of_list_ascii
    (List.rev (lstrip_chars (List.rev (lstrip_chars (list_ascii_of_string s))))).

(** [s.startswith(p)] *)
Definition startswith (p s : string) : bool := String.prefix p s.

(** [s[n:]] *)
Fixpoint drop (n : nat) (s : string) : string :=
  match n, s with
  | O, _ => s
  | S _, EmptyString => EmptyString
  | S n', String _ s' => drop n' s'
  end.

(** [s.split(sep)] for a separator that is not empty: [cur] holds the
    piece being read, reversed, and [skip] the characters of a separator
    still to pass over. *)
Fixpoint split_go (sep s : string) (cur : list ascii) (skip : nat) : list string :=
  match s with
  | EmptyString => [string_of_list_ascii (List.rev cur)]
  | String c s' =>
      match skip with
      | S k => split_go sep s' cur k
      | O =>
          if String.prefix sep s
          then string_of_list_ascii (List.rev cur)
                 :: split_go sep s' [] (String.length sep - 1)
          else split_go sep s' (c :: cur) 0
      end
  end.

Definition split (sep s : string) : list string := split_go sep s [] 0.

(** [bool(s)] *)
Definition truthy (s : string) : bool :=
  match s with EmptyString => false | _ => true end.

(** [str(n)] for an integer. *)
Definition of_Z (z : Z) : string := NilZero.string_of_int (Z.to_int z).

End PyStr.

(** ** Cells *)

Inductive value : Type :=
| VNone
| VNaN
| VInt (z : Z)
| VStr (s : string).

(** [a == b] where a cell is compared with an identifier or with a
    status: integers and texts are compared by value, and a missing cell
    equals nothing. *)
Definition py_eq (a b : value) : bool :=
  match a, b with
  | VInt x, VInt y => Z.eqb x y
  | VStr x, VStr y => String.eqb x y
  | _, _ => false
  end.

(** [bool(v)] *)
Definition truthy (v : value) : bool :=
  match v with
  | VNone => false
  | VNaN => true
  | VInt z => negb (Z.eqb z 0)
  | VStr s => PyStr.truthy s
  end.

(** [pd.isna(v)] *)
Definition isna (v : value) : bool :=
  match v with
  | VNone | VNaN => true
  | _ => false
  end.

(** [str(v)] *)
Definition py_str (v : value) : string :=
  match v with
  | VNone => "None"
  | VNaN => "nan"
  | VInt z => PyStr.of_Z z
  | VStr s => s
  end.

(** ** The ten columns and rows over them *)

Inductive column : Type :=
| reminder_id | raw_input | title | category | date
| time | priority | notes | status | created_at.

Definition columns : list column :=
  [reminder_id; raw_input; title; category; date;
   time; priority; notes; status; created_at].

Definition column_name (c : column) : string :=
  match c with
  | reminder_id => "reminder_id"
  | raw_input => "raw_input"
  | title => "title"
  | category => "category"
  | date => "date"
  | time => "time"
  | priority => "priority"
  | notes => "notes"
  | status => "status"
  | created_at => "created_at"
  end.

Definition column_eqb (a b : column) : bool :=
  String.eqb (column_name a) (column_name b).

Record row (A : Type) : Type := mk_row {
  f_reminder_id : A; f_raw_input : A; f_title : A; f_category : A;
  f_date : A; f_time : A; f_priority : A; f_notes : A; f_status : A;
  f_created_at : A
}.

Arguments mk_row {A}.
Arguments f_reminder_id {A}.
Arguments f_raw_input {A}.
Arguments f_title {A}.
Arguments f_category {A}.
Arguments f_date {A}.
Arguments f_time {A}.
Arguments f_priority {A}.
Arguments f_notes {A}.
Arguments f_status {A}.
Arguments f_created_at {A}.

(** [r[c]] *)
Definition get {A} (c : column) (r : row A) : A :=
  match c with
  | reminder_id => f_reminder_id r
  | raw_input => f_raw_input r
  | title => f_title r
  | category => f_category r
  | date => f_date r
  | time => f_time r
  | priority => f_priority r
  | notes => f_notes r
  | status => f_status r
  | created_at => f_created_at r
  end.

Definition tabulate {A} (f : column -> A) : row A :=
  mk_row (f reminder_id) (f raw_input) (f title) (f category) (f date)
         (f time) (f priority) (f notes) (f status) (f created_at).

(** [r[c] = v] *)
Definition set {A} (c : column) (v : A) (r : row A) : row A :=
  tabulate (fun c' => if column_eqb c' c then v else get c' r).

Definition row_map {A B} (f : A -> B) (r : row A) : row B :=
  tabulate (fun c => f (get c r)).

(** A data frame with the ten columns, and the values of one column. *)
Definition frame : Type := list (row value).

Definition col {A} (c : column) (t : list (row A)) : list A := map (get c) t.

(** ** The tabular encoding *)

Module Csv.

(** The texts that [read_csv] reads as a missing value by default. *)
Definition na_values : list string :=
  [""; "#N/A"; "#N/A N/A"; "#NA"; "-1.#IND"; "-1.#QNAN"; "-NaN"; "-nan";
   "1.#IND"; "1.#QNAN"; "<NA>"; "N/A"; "NA"; "NULL"; "NaN"; "None";
   "n/a"; "nan"; "null"].

Definition is_na (s : string) : bool := existsb (String.eqb s) na_values.

(** The white space that the tokenizer passes over around a number. *)
Definition isspace_ascii (c : ascii) : bool :=
  let n := nat_of_ascii c in
  ((n =? 32) || ((9 <=? n) && (n <=? 13)))%nat.

Fixpoint skip_spaces (l : list ascii) : list ascii :=
  match l with
  | [] => []
  | c :: l' => if isspace_ascii c then skip_spaces l' else l
  end.

Definition trim (s : string) : string :=
  string_of_list_ascii
    (List.rev (skip_spaces (List.rev (skip_spaces (list_ascii_of_string s))))).

(** The integer a field denotes: spaces, a sign, then digits only. *)
Definition int_literal (s : string) : option Z :=
  match trim s with
  | String "+" (String "-" _) => None
  | String "+" t => option_map Z.of_int (NilZero.int_of_string t)
  | t => option_map Z.of_int (NilZero.int_of_string t)
  end.

Definition is_int (s : string) : bool :=
  match int_literal s with Some _ => true | None => false end.

(** A column is numeric when each field is missing or an integer. *)
Definition numeric_col (fields : list string) : bool :=
  forallb (fun s => is_na s || is_int s) fields.

Definition read_cell (numeric : bool) (s : string) : value :=
  if is_na s then VNaN
  else if numeric
       then match int_literal s with Some z => VInt z | None => VStr s end
       else VStr s.

(** What [to_csv] writes for a cell: nothing for a missing one. *)
Definition write_cell (v : value) : string :=
  match v with
  | VNone | VNaN => ""
  | VInt z => PyStr.of_Z z
  | VStr s => s
  end.

(** The data rows of a file with the ten-column header. *)
Definition table : Type := list (row string).

Definition read_csv (t : table) : frame :=
  map (fun r => tabulate (fun c => read_cell (numeric_col (col c t)) (get c r))) t.

Definition to_csv (f : frame) : table := map (row_map write_cell) f.

(** The characters of a written integer: no space and no plus sign. *)
Definition plain_char (c : ascii) : bool :=
  negb (isspace_ascii c) && negb (Ascii.eqb c "+").

(** A column written and read again. *)
Definition reread (vs : list value) : list value :=
  map (fun v => read_cell (numeric_col (map write_cell vs)) (write_cell v)) vs.

(** The cells a numeric column is made of, and those a text column is
    made of; an anchor is a text that makes its column a text column. *)
Definition writes_numeric (v : value) : bool :=
  match v with VStr _ => false | _ => true end.

Definition numeric_cell (v : value) : bool :=
  match v with VNaN | VInt _ => true | _ => false end.

Definition text_cell (v : value) : bool :=
  match v with
  | VNaN => true
  | VStr s => negb (is_na s)
  | _ => false
  end.

Definition anchor (v : value) : bool :=
  match v with
  | VStr s => negb (is_na s) && negb (is_int s)
  | _ => false
  end.

(** The texts that [read_csv] can take for a floating point number or
    for a truth value when no other text stands in their column.  The
    model keeps them as texts, so the statements that depend on how such
    a text is read leave them out.  The test is generous: every literal
    with a fraction or an exponent, every spelling of infinity and every
    boolean literal passes it, and so do some texts that are none. *)
Definition is_digit (c : ascii) : bool :=
  let n := nat_of_ascii c in ((48 <=? n) && (n <=? 57))%nat.

Definition lower (c : ascii) : ascii :=
  let n := nat_of_ascii c in
  if ((65 <=? n) && (n <=? 90))%nat then ascii_of_nat (n + 32) else c.

Definition is_sign (c : ascii) : bool := Ascii.eqb c "+" || Ascii.eqb c "-".

Definition is_exp (c : ascii) : bool := Ascii.eqb c "e" || Ascii.eqb c "E".

Definition number_char (c : ascii) : bool :=
  is_digit c || is_sign c || is_exp c || Ascii.eqb c ".".

(** A sign stands first or right after the mark of the exponent. *)
Fixpoint signs_placed (after_exp : bool) (l : list ascii) : bool :=
  match l with
  | [] => true
  | c :: l' => (negb (is_sign c) || after_exp) && signs_placed (is_exp c) l'
  end.

Definition number_word (s : string) : bool :=
  existsb (String.eqb s)
    ["true"; "false"; "inf"; "+inf"; "-inf"; "infinity"; "+infinity";
     "-infinity"; "nan"; "+nan"; "-nan"].

Definition number_like (s : string) : bool :=
  let l := list_ascii_of_string (trim s) in
  number_word (string_of_list_ascii (map lower l))
  || (existsb is_digit l && forallb number_char l && signs_placed true l).

(** A text that is read as it was written whatever else its column
    holds: not missing, not an integer, not number-like. *)
Definition kept_text (v : value) : bool :=
  match v with
  | VStr s => negb (is_na s) && negb (is_int s) && negb (number_like s)
  | _ => false
  end.

(** An integer that fits the 64 bits of a column of integers. *)
Definition in_int64 (z : Z) : bool := (- 2 ^ 63 <=? z) && (z <? 2 ^ 63).

Definition is_int64 (v : value) : bool :=
  match v with VInt z => in_int64 z | _ => false end.

(** A column of the model that pandas reads the same way: integers of
    64 bits and missing cells only, or texts among which one is kept as
    a text. *)
Definition faithful_col (vs : list value) : bool :=
  forallb (fun v => isna v || is_int64 v) vs || existsb kept_text vs.

End Csv.

(** ** JSON values, as [json.loads] returns them *)

Inductive json : Type :=
| JNull
| JBool (b : bool)
| JNum (q : Q)
| JStr (s : string)
| JList (l : list json)
| JDict (d : list (string * json)).

Module Json.

(** [bool(j)] *)
Definition truthy (j : json) : bool :=
  match j with
  | JNull => false
  | JBool b => b
  | JNum q => negb (Qeq_bool q 0)
  | JStr s => PyStr.truthy s
  | JList l => match l with [] => false | _ => true end
  | JDict d => match d with [] => false | _ => true end
  end.

Fixpoint lookup {A} (k : string) (d : list (string * A)) : option A :=
  match d with
  | [] => None
  | (k', v) :: d' => if String.eqb k k' then Some v else lookup k d'
  end.

(** [d.get(k, default)] on a parsed object. *)
Definition get (j : json) (k : string) (default : json) : json :=
  match j with
  | JDict d => match lookup k d with Some v => v | None => default end
  | _ => default
  end.

End Json.

(** ** The state of the application: the file and the session *)

(** [None] when [reminders.csv] does not exist. *)
Definition file : Type := option Csv.table.

Record session_state : Type := mk_session {
  reminders : option frame;
  parsed_reminder : json;
  api_enabled : bool
}.

Record state : Type := mk_state {
  csv_file : file;
  session : session_state
}.

Definition clear_reminders (s : session_state) : session_state :=
  mk_session None (parsed_reminder s) (api_enabled s).

Definition set_parsed_reminder (p : json) (s : session_state) : session_state :=
  mk_session (reminders s) p (api_enabled s).

(** ** The reminder store *)

Definition load_reminders (st : state) : frame :=
  match csv_file st with
  | Some t => Csv.read_csv t
  | None => []
  end.

(** [pd.DataFrame([reminder_data])] lined up with the ten columns, as
    [pd.concat] does: a column the dictionary has no key for is missing
    in the new row. *)
Definition new_reminder (reminder_data : list (string * value)) : row value :=
  tabulate (fun c =>
    match Json.lookup (column_name c) reminder_data with
    | Some v => v
    | None => VNaN
    end).

Definition save_reminder_to_csv (reminder_data : list (string * value))
    (st : state) : state :=
  let reminders := load_reminders st in
  let reminders := reminders ++ [new_reminder reminder_data] in
  mk_state (Some (Csv.to_csv reminders)) (clear_reminders (session st)).

(** [reminders.loc[reminders["reminder_id"] == reminder_id, "status"] = status] *)
Definition set_status (reminder_id0 : value) (new_status : value)
    (reminders : frame) : frame :=
  map (fun r => if py_eq (get reminder_id r) reminder_id0
                then set status new_status r else r) reminders.

Definition update_reminder_status (reminder_id0 : value) (new_status : value)
    (st : state) : state :=
  let reminders := load_reminders st in
  let reminders := set_status reminder_id0 new_status reminders in
  mk_state (Some (Csv.to_csv reminders)) (clear_reminders (session st)).

(** The rows an update is for. *)
Definition matches (id : value) (r : row value) : bool :=
  py_eq (get reminder_id r) id.

(** ** The parse pipeline *)

Definition dq : string := String (ascii_of_nat 34) EmptyString.
Definition nl : string := String (ascii_of_nat 10) EmptyString.

(** The prompt of [parse_with_gemini]; [today] is
    [datetime.now().strftime('%Y-%m-%d')]. *)
Definition prompt (user_input today : string) : string :=
  String.concat nl
    ["You are a reminder parsing assistant. Extract structured information from the user's input about a reminder or appointment.";
     "";
     ("User input: " ++ dq ++ user_input ++ dq)%string;
     "";
     "Return ONLY valid JSON (no markdown, no code blocks) with these fields:";
     "- title: A concise title for the reminder (string)";
     "- category: One of 'appointment', 'task', 'opportunity', 'follow-up' (string)";
     "- date: Date in ISO format YYYY-MM-DD if determinable, otherwise null (string or null)";
     "- time: Time in HH:MM format if mentioned, otherwise null (string or null)";
     "- priority: One of 'High', 'Medium', 'Low' (string)";
     "- notes: Any additional details from the input (string)";
     "- confidence: Confidence score 0-1 that the parsing is correct (number)";
     "";
     ("Handle vague dates intelligently (e.g., " ++ dq ++ "next week" ++ dq
        ++ " should be estimated from today " ++ today ++ ").")%string;
     "If the date cannot be determined at all, set to null.";
     "Return ONLY the JSON object, nothing else."].

(** The text handed to [json.loads]: the response stripped, and taken
    out of a fenced block when it starts with one. *)
Definition clean_json_text (text : string) : string :=
  let json_text := PyStr.strip text in
  if PyStr.startswith "```" json_text then
    let json_text := nth 1 (PyStr.split "```" json_text) EmptyString in
    let json_text :=
      if PyStr.startswith "json" json_text then PyStr.drop 4 json_text
      else json_text in
    PyStr.strip json_text
  else json_text.

(** [generate_content] answers a prompt with a text or raises, and
    [json_loads] decodes a text or raises; every exception is caught and
    [None], here [JNull], is returned. *)
Definition parse_with_gemini
    (generate_content : string -> option string)
    (json_loads : string -> option json)
    (today user_input : string) : json :=
  match generate_content (prompt user_input today) with
  | None => JNull
  | Some text =>
      match json_loads (clean_json_text text) with
      | Some parsed => parsed
      | None => JNull
      end
  end.

(** The handler of the button "Parse with AI". *)
Definition parse_button_handler
    (generate_content : string -> option string)
    (json_loads : string -> option json)
    (today : string) (parse_button : bool) (user_input : string)
    (st : state) : state :=
  if parse_button && PyStr.truthy (PyStr.strip user_input) then
    let parsed := parse_with_gemini generate_content json_loads today user_input in
    if Json.truthy parsed
    then mk_state (csv_file st) (set_parsed_reminder parsed (session st))
    else st
  else st.

(** [parsed.get("confidence", 0.8)] of the review form. *)
Definition confidence (parsed : json) : json :=
  Json.get parsed "confidence" (JNum (8 # 10)).

(** ** Saving a reviewed draft *)

(** The handler of the button "Save Reminder", which the review form
    shows while a draft is held: the fields of the form, [now] for
    [datetime.now().isoformat()].  The text of the notes field is read
    from the form and is not put in [reminder_data]. *)
Definition save_button_handler
    (user_input title0 category0 date0 time0 priority0 notes0 now : string)
    (st : state) : state :=
  if negb (PyStr.truthy (PyStr.strip title0)) then st
  else
    let reminders := load_reminders st in
    let reminder_id0 := Z.of_nat (List.length reminders) + 1 in
    let reminder_data :=
      [("reminder_id", VInt reminder_id0);
       ("raw_input", VStr user_input);
       ("title", VStr title0);
       ("category", VStr category0);
       ("date", if PyStr.truthy (PyStr.strip date0) then VStr date0 else VNone);
       ("time", if PyStr.truthy (PyStr.strip time0) then VStr time0 else VNone);
       ("priority", VStr priority0);
       ("status", VStr "pending");
       ("created_at", VStr now)] in
    let st := save_reminder_to_csv reminder_data st in
    mk_state (csv_file st) (mk_session None JNull (api_enabled (session st))).

(** ** The helpers of the dashboard *)

Record pydate : Type := mk_date { year : Z; month : Z; day : Z }.

Record pydatetime : Type := mk_datetime {
  date_part : pydate;      (* [.date()] *)
  seconds_of_day : Z
}.

(** [a < b] on dates. *)
Definition date_ltb (a b : pydate) : bool :=
  (year a <? year b)
  || ((year a =? year b)
      && ((month a <? month b)
          || ((month a =? month b) && (day a <? day b)))).

(** [fromisoformat] returns a date and time or raises; [today] is
    [datetime.now().date()]. *)
Definition is_overdue (fromisoformat : string -> option pydatetime)
    (today : pydate) (date_str : value) : bool :=
  if negb (truthy date_str) || py_eq date_str (VStr "null") || isna date_str
  then false
  else
    match fromisoformat (py_str date_str) with
    | Some dt => date_ltb (date_part dt) today
    | None => false
    end.

(** [sort_values(..., na_position="last")], as pandas computes it: the
    rows that have a key are sorted by [argsort], and the rows without a
    key are put after them in the order they had. *)
Definition with_key {A} (keyed : list (option Z * A)) : list (Z * A) :=
  flat_map (fun kr => match fst kr with
                      | Some k => [(k, snd kr)]
                      | None => []
                      end) keyed.

Definition without_key {A} (keyed : list (option Z * A)) : list A :=
  flat_map (fun kr => match fst kr with
                      | Some _ => []
                      | None => [snd kr]
                      end) keyed.

Definition sort_values {A} (argsort : list (Z * A) -> list (Z * A))
    (keyed : list (option Z * A)) : list A :=
  map snd (argsort (with_key keyed)) ++ without_key keyed.

(** The dashboard's order: [to_datetime] gives each date its time stamp,
    or nothing for a date it cannot read ([errors="coerce"]). *)
Definition reminders_sorted
    (to_datetime : list value -> list (option Z))
    (argsort : list (Z * row value) -> list (Z * row value))
    (reminders : frame) : frame :=
  let date_sort := to_datetime (col date reminders) in
  sort_values argsort (combine date_sort reminders).

(** The four numbers of the summary. *)
Definition total (reminders : frame) : nat := List.length reminders.

Definition pending (reminders : frame) : nat :=
  List.length (filter (fun r => py_eq (get status r) (VStr "pending")) reminders).

Definition completed (reminders : frame) : nat :=
  List.length (filter (fun r => py_eq (get status r) (VStr "completed")) reminders).

Definition overdue_count (fromisoformat : string -> option pydatetime)
    (today : pydate) (reminders : frame) : nat :=
  list_sum
    (map (fun ds => if is_overdue fromisoformat today (fst ds)
                       && py_eq (snd ds) (VStr "pending")
                    then 1%nat else 0%nat)
         (combine (col date reminders) (col status reminders))).

(** ** The rows of the dashboard *)

(** The three headings a reminder is listed under. *)
Inductive heading : Type :=
| HCompleted
| HOverdue
| HPlain.

(** The heading of a row: completed first, then the overdue flag. *)
Definition heading_of (fromisoformat : string -> option pydatetime)
    (today : pydate) (reminder : row value) : heading :=
  let is_overdue_flag := is_overdue fromisoformat today (get date reminder) in
  let is_completed := py_eq (get status reminder) (VStr "completed") in
  if is_completed then HCompleted
  else if is_overdue_flag then HOverdue
  else HPlain.

(** [f"{v or fallback}"], the text after the icon of the date and of
    the time of a row that is not completed. *)
Definition label_or (v : value) (fallback : string) : string :=
  if truthy v then py_str v else fallback.

Definition date_label (reminder : row value) : string :=
  label_or (get date reminder) "No date".

Definition time_label (reminder : row value) : string :=
  label_or (get time reminder) "No time".

(** The button of a row, clicked: "Undo" under a completed row, "Mark
    as Completed" under the others. *)
Definition row_button_click (reminder : row value) (st : state) : state :=
  let is_completed := py_eq (get status reminder) (VStr "completed") in
  if is_completed
  then update_reminder_status (get reminder_id reminder) (VStr "pending") st
  else update_reminder_status (get reminder_id reminder)
         (VStr (if is_completed then "pending" else "completed")) st.

(** ** Notions used in the statements *)

Definition is_pending (r : row value) : bool :=
  py_eq (get status r) (VStr "pending").

Definition is_completed (r : row value) : bool :=
  py_eq (get status r) (VStr "completed").

(** The rows that are neither pending nor completed. *)
Definition others (reminders : frame) : nat :=
  List.length
    (filter (fun r => negb (is_pending r) && negb (is_completed r)) reminders).

(** The guard of [is_overdue]: the values it takes for no date. *)
Definition absent (v : value) : bool :=
  negb (truthy v) || py_eq v (VStr "null") || isna v.

Definition date_lt (a b : pydate) : Prop :=
  year a < year b \/
  (year a = year b /\
   (month a < month b \/ (month a = month b /\ day a < day b))).

Definition key_le {A} (a b : Z * A) : Prop := fst a <= fst b.

Definition no_key {A} (kr : option Z * A) : bool :=
  match fst kr with None => true | Some _ => false end.

(** The time stamp of the row at a position, and the order in which two
    positions of the collection may be listed: by time stamp where both
    rows have one, a row with a time stamp before a row without, and two
    rows without a time stamp in the order of their positions. *)
Definition key_at (keys : list (option Z)) (i : nat) : option Z :=
  match nth_error keys i with Some k => k | None => None end.

Definition listed_before (keys : list (option Z)) (i j : nat) : Prop :=
  match key_at keys i, key_at keys j with
  | Some a, Some b => a <= b
  | Some _, None => True
  | None, Some _ => False
  | None, None => (i < j)%nat
  end.

Definition on_snd {K A B} (f : A -> B) (p : K * A) : K * B :=
  (fst p, f (snd p)).

(** The dictionary the save handler builds for a store of [count] rows. *)
Definition reminder_data_of_form (count : nat)
    (user_input title0 category0 date0 time0 priority0 now : string)
    : list (string * value) :=
  [("reminder_id", VInt (Z.of_nat count + 1));
   ("raw_input", VStr user_input);
   ("title", VStr title0);
   ("category", VStr category0);
   ("date", if PyStr.truthy (PyStr.strip date0) then VStr date0 else VNone);
   ("time", if PyStr.truthy (PyStr.strip time0) then VStr time0 else VNone);
   ("priority", VStr priority0);
   ("status", VStr "pending");
   ("created_at", VStr now)].

(** A status of the enumeration. *)
Definition valid_status (v : value) : Prop :=
  v = VStr "pending" \/ v = VStr "completed".

(** The states the application reaches from a missing file by saving
    reminders, clicking the buttons of listed rows and parsing. *)
Inductive app_reachable : state -> Prop :=
| app_no_file (s : session_state) : app_reachable (mk_state None s)
| app_save (st : state)
    (user_input title0 category0 date0 time0 priority0 notes0 now : string) :
    app_reachable st ->
    app_reachable (save_button_handler user_input title0 category0 date0 time0
                     priority0 notes0 now st)
| app_click (st : state) (reminder : row value) :
    app_reachable st ->
    In reminder (load_reminders st) ->
    app_reachable (row_button_click reminder st)
| app_parse (st : state)
    (generate_content : string -> option string)
    (json_loads : string -> option json)
    (today : string) (parse_button : bool) (user_input : string) :
    app_reachable st ->
    app_reachable (parse_button_handler generate_content json_loads today
                     parse_button user_input st).

(** A cell that a numeric column takes without changing its kind, and
    a column that holds an integer. *)
Definition numeric_like (v : value) : bool :=
  match v with
  | VStr t => Csv.is_na t || Csv.is_int t
  | _ => true
  end.

Definition has_int (vs : list value) : bool :=
  existsb (fun v => match v with VInt _ => true | _ => false end) vs.

(** A text without a backtick. *)
Definition no_backtick (s : string) : bool :=
  forallb (fun c => negb (Ascii.eqb c "`")) (list_ascii_of_string s).

(** What follows the opening fence once the language tag is dropped. *)
Definition untag (inner : string) : string :=
  if PyStr.startswith "json" inner then PyStr.drop 4 inner else inner.

(** The states the application reaches from a missing file by saving
    reminders from the form. *)
Inductive reachable : state -> Prop :=
| reach_no_file (s : session_state) : reachable (mk_state None s)
| reach_save (st : state)
    (user_input title0 category0 date0 time0 priority0 notes0 now : string) :
    reachable st ->
    reachable (save_button_handler user_input title0 category0 date0 time0
                 priority0 notes0 now st).

(** The identifiers 1, 2, ..., n in this order. *)
Definition first_ids (n : nat) : list value :=
  map (fun i => VInt (Z.of_nat i + 1)) (seq 0 n).

(** ** Instances and sample data for the examples *)

(** An instance of [fromisoformat] for the examples: the dates of the
    form [YYYY-MM-DD], which is what the form asks for.  Python reads
    these and further forms (a date without dashes, a week date, a time
    of day after the date), which the instance does not read and the
    examples do not use. *)
Module IsoDate.

Definition digit (c : ascii) : option Z :=
  let n := nat_of_ascii c in
  if ((48 <=? n) && (n <=? 57))%nat then Some (Z.of_nat (n - 48)) else None.

Fixpoint number (l : list ascii) (acc : Z) : option Z :=
  match l with
  | [] => Some acc
  | c :: l' =>
      match digit c with
      | Some d => number l' (10 * acc + d)
      | None => None
      end
  end.

Definition is_leap (y : Z) : bool :=
  (y mod 4 =? 0) && (negb (y mod 100 =? 0) || (y mod 400 =? 0)).

Definition days_in_month (y m : Z) : Z :=
  if m =? 2 then (if is_leap y then 29 else 28)
  else if (m =? 4) || (m =? 6) || (m =? 9) || (m =? 11) then 30
  else 31.

Definition fromisoformat (s : string) : option pydatetime :=
  match list_ascii_of_string s with
  | [y1; y2; y3; y4; "-"%char; m1; m2; "-"%char; d1; d2] =>
      match number [y1; y2; y3; y4] 0, number [m1; m2] 0, number [d1; d2] 0 with
      | Some y, Some m, Some d =>
          if (1 <=? y) && (1 <=? m) && (m <=? 12)
             && (1 <=? d) && (d <=? days_in_month y m)
          then Some (mk_datetime (mk_date y m d) 0)
          else None
      | _, _, _ => None
      end
  | _ => None
  end.

End IsoDate.

(** The sort inside [sort_values], as an insertion sort: numpy's sort
    may list rows of equal time stamps in another order, which no
    statement below depends on.  For the examples, the day count of a
    [YYYY-MM-DD] text stands for [to_datetime]. *)
Fixpoint insert_key {A} (x : Z * A) (l : list (Z * A)) : list (Z * A) :=
  match l with
  | [] => [x]
  | y :: l' => if fst x <=? fst y then x :: l else y :: insert_key x l'
  end.

Definition insertion_argsort {A} (l : list (Z * A)) : list (Z * A) :=
  fold_right insert_key [] l.

Definition iso_to_datetime (dates : list value) : list (option Z) :=
  map (fun v =>
         match v with
         | VStr s =>
             match IsoDate.fromisoformat s with
             | Some dt =>
                 Some (372 * year (date_part dt) + 31 * month (date_part dt)
                       + day (date_part dt))
             | None => None
             end
         | _ => None
         end) dates.

Definition session0 : session_state := mk_session None JNull true.

(** No file yet. *)
Definition no_file : state := mk_state None session0.

(** One reminder saved from the form, then a second one without a date. *)
Definition one_saved : state :=
  save_button_handler "Dentist on Friday at 3pm" "Dentist" "appointment"
    "2024-01-05" "15:00" "High" "bring the card" "2024-01-01T09:30:00" no_file.

Definition two_saved : state :=
  save_button_handler "call the bank" "Call the bank" "task"
    "" "" "Medium" "" "2024-01-02T08:00:00" one_saved.

(** A valid reminder with empty notes and no date or time. *)
Definition empty_notes_row : list (string * value) :=
  [("reminder_id", VInt 1); ("raw_input", VStr "pay the rent");
   ("title", VStr "Pay the rent"); ("category", VStr "task");
   ("date", VNone); ("time", VNone); ("priority", VStr "High");
   ("notes", VStr ""); ("status", VStr "pending");
   ("created_at", VStr "2024-01-01T09:30:00")].

(** The same reminder with the empty text for its date. *)
Definition empty_date_row : list (string * value) :=
  [("reminder_id", VInt 1); ("raw_input", VStr "pay the rent");
   ("title", VStr "Pay the rent"); ("category", VStr "task");
   ("date", VStr ""); ("time", VNone); ("priority", VStr "High");
   ("notes", VStr ""); ("status", VStr "pending");
   ("created_at", VStr "2024-01-01T09:30:00")].

(** Four reminders: dated in March, without a date, dated in January,
    with a date that cannot be read. *)
Definition sample_frame : frame :=
  map (fun idate : Z * value =>
         mk_row (VInt (fst idate)) (VStr "x") (VStr "X") (VStr "task")
                (snd idate) VNaN (VStr "Low") VNaN (VStr "pending")
                (VStr "2024-01-01T00:00:00"))
      [(1, VStr "2024-03-01"); (2, VNaN); (3, VStr "2024-01-05");
       (4, VStr "some day")].

(** Instances for the examples: an endpoint that answers with an object
    in a fenced block, one that answers with prose, one that fails, and
    a decoder that knows the one object. *)
Definition object_text : string :=
  ("{" ++ dq ++ "title" ++ dq ++ ": " ++ dq ++ "Dentist" ++ dq ++ "}")%string.

Definition fenced_reply : string :=
  ("```json" ++ nl ++ object_text ++ nl ++ "```" ++ nl)%string.

Definition fenced_endpoint (prompt0 : string) : option string :=
  Some fenced_reply.

Definition chatty_endpoint (prompt0 : string) : option string :=
  Some "Sure! Here is your reminder.".

Definition failing_endpoint (prompt0 : string) : option string := None.

Definition sample_loads (text : string) : option json :=
  if String.eqb text object_text
  then Some (JDict [("title", JStr "Dentist")])
  else None.

Definition with_draft : state :=
  mk_state None
    (mk_session None (JDict [("title", JStr "Groceries")]) true).

(** ** Rows and columns *)

Lemma get_tabulate {A} (f : column -> A) (c : column) :
  get c (tabulate f) = f c.
Proof. destruct c; reflexivity. Qed.

Lemma row_ext {A} (r r' : row A) :
  (forall c, get c r = get c r') -> r = r'.
Proof.
  intros H. destruct r, r'.
  pose proof (H reminder_id); pose proof (H raw_input); pose proof (H title);
  pose proof (H category); pose proof (H date); pose proof (H time);
  pose proof (H priority); pose proof (H notes); pose proof (H status);
  pose proof (H created_at). simpl in *. congruence.
Qed.

Lemma column_eqb_eq (a b : column) : column_eqb a b = true <-> a = b.
Proof. destruct a, b; split; intros H; try reflexivity; discriminate H. Qed.

Lemma column_eqb_refl (a : column) : column_eqb a a = true.
Proof. apply column_eqb_eq; reflexivity. Qed.

Lemma get_set_same {A} (c : column) (v : A) (r : row A) :
  get c (set c v r) = v.
Proof. unfold set. rewrite get_tabulate, column_eqb_refl. reflexivity. Qed.

Lemma get_set_other {A} (c c' : column) (v : A) (r : row A) :
  c' <> c -> get c' (set c v r) = get c' r.
Proof.
  intros H. unfold set. rewrite get_tabulate.
  destruct (column_eqb c' c) eqn:E; [|reflexivity].
  apply column_eqb_eq in E. contradiction.
Qed.

Lemma get_row_map {A B} (f : A -> B) (c : column) (r : row A) :
  get c (row_map f r) = f (get c r).
Proof. destruct c; reflexivity. Qed.

Lemma map_fixed {A} (f : A -> A) (l : list A) :
  Forall (fun x => f x = x) l -> map f l = l.
Proof. induction 1; simpl; congruence. Qed.

(** ** Integers through the encoding *)

Module CsvFacts.
Import Csv.

Lemma plain_uint (d : uint) :
  Forall (fun c => plain_char c = true)
         (list_ascii_of_string (NilEmpty.string_of_uint d)).
Proof. induction d; simpl; constructor; auto. Qed.

Lemma plain_int (d : Decimal.int) :
  Forall (fun c => plain_char c = true)
         (list_ascii_of_string (NilZero.string_of_int d)).
Proof.
  destruct d as [u|u]; simpl.
  - destruct u; try apply (plain_uint); repeat constructor.
  - constructor; [reflexivity|].
    destruct u; try apply (plain_uint); repeat constructor.
Qed.

Lemma skip_spaces_plain (l : list ascii) :
  Forall (fun c => plain_char c = true) l -> skip_spaces l = l.
Proof.
  destruct 1 as [|c l Hc Hl]; [reflexivity|]. simpl.
  unfold plain_char in Hc. apply andb_true_iff in Hc as [Hc _].
  apply negb_true_iff in Hc. rewrite Hc. reflexivity.
Qed.

Lemma trim_plain (s : string) :
  Forall (fun c => plain_char c = true) (list_ascii_of_string s) ->
  trim s = s.
Proof.
  intros H. unfold trim. rewrite (skip_spaces_plain _ H).
  rewrite skip_spaces_plain by (apply Forall_rev; exact H).
  rewrite rev_involutive. apply string_of_list_ascii_of_string.
Qed.

Lemma to_int_not_nil (z : Z) : Z.to_int z <> Pos Nil /\ Z.to_int z <> Neg Nil.
Proof.
  destruct z as [|p|p]; simpl; split; try discriminate.
  - intros H. injection H as H. apply (DecimalPos.Unsigned.to_uint_nonnil p). exact H.
  - intros H. injection H as H. apply (DecimalPos.Unsigned.to_uint_nonnil p). exact H.
Qed.

Lemma int_literal_of_Z (z : Z) : int_literal (PyStr.of_Z z) = Some z.
Proof.
  unfold int_literal, PyStr.of_Z.
  pose proof (plain_int (Z.to_int z)) as Hp.
  rewrite (trim_plain _ Hp).
  destruct (to_int_not_nil z) as [H1 H2].
  pose proof (NilZero.isi _ H1 H2) as Hisi.
  assert (Hz : option_map Z.of_int
                 (NilZero.int_of_string (NilZero.string_of_int (Z.to_int z)))
               = Some z).
  { rewrite Hisi. simpl. f_equal. apply DecimalZ.of_to. }
  destruct (NilZero.string_of_int (Z.to_int z)) as [|a s] eqn:E; [exact Hz|].
  simpl in Hp. inversion Hp as [|? ? Ha _]; subst.
  destruct (Ascii.eqb a "+") eqn:Ea.
  - unfold plain_char in Ha. rewrite Ea in Ha.
    rewrite andb_false_r in Ha. discriminate Ha.
  - destruct a as [[] [] [] [] [] [] [] []]; try exact Hz; discriminate Ea.
Qed.

Lemma is_int_of_Z (z : Z) : is_int (PyStr.of_Z z) = true.
Proof. unfold is_int. rewrite int_literal_of_Z. reflexivity. Qed.

Lemma na_not_int (s : string) : is_na s = true -> is_int s = false.
Proof.
  unfold is_na, na_values. simpl. intros H.
  repeat (apply orb_true_iff in H as [H|H];
          [apply String.eqb_eq in H; subst s; reflexivity|]).
  discriminate H.
Qed.

Lemma is_na_of_Z (z : Z) : is_na (PyStr.of_Z z) = false.
Proof.
  destruct (is_na (PyStr.of_Z z)) eqn:E; [|reflexivity].
  apply na_not_int in E. rewrite is_int_of_Z in E. discriminate E.
Qed.

End CsvFacts.

(** ** Columns through the encoding *)

Module ColumnFacts.
Import Csv CsvFacts.

Lemma col_read_csv (c : column) (t : table) :
  col c (read_csv t) = map (read_cell (numeric_col (col c t))) (col c t).
Proof.
  unfold read_csv, col. rewrite !map_map. apply map_ext.
  intros r. rewrite get_tabulate. reflexivity.
Qed.

Lemma col_to_csv (c : column) (f : frame) :
  col c (to_csv f) = map write_cell (col c f).
Proof.
  unfold to_csv, col. rewrite !map_map. apply map_ext.
  intros r. apply get_row_map.
Qed.

Lemma col_reread (c : column) (f : frame) :
  col c (read_csv (to_csv f)) = reread (col c f).
Proof.
  rewrite col_read_csv, col_to_csv. unfold reread. rewrite map_map. reflexivity.
Qed.

Lemma col_app {A} (c : column) (f g : list (row A)) :
  col c (f ++ g) = col c f ++ col c g.
Proof. apply map_app. Qed.

Lemma frame_ext {A} (f g : list (row A)) :
  (forall c, col c f = col c g) -> f = g.
Proof.
  revert g. induction f as [|r f IH]; intros [|r' g] H.
  - reflexivity.
  - discriminate (H reminder_id).
  - discriminate (H reminder_id).
  - f_equal.
    + apply row_ext. intros c. specialize (H c). simpl in H. congruence.
    + apply IH. intros c. specialize (H c). simpl in H. congruence.
Qed.

Lemma length_read_csv (t : table) :
  List.length (read_csv t) = List.length t.
Proof. apply length_map. Qed.

Lemma length_to_csv (f : frame) :
  List.length (to_csv f) = List.length f.
Proof. apply length_map. Qed.

Lemma numeric_col_written (vs : list value) :
  forallb writes_numeric vs = true -> numeric_col (map write_cell vs) = true.
Proof.
  unfold numeric_col. induction vs as [|v vs IH]; simpl; [reflexivity|].
  intros H. apply andb_true_iff in H as [Hv Hvs]. rewrite (IH Hvs), andb_true_r.
  destruct v; try reflexivity; [|discriminate Hv].
  simpl. rewrite is_int_of_Z. apply orb_true_r.
Qed.

Lemma numeric_col_anchored (vs : list value) :
  existsb anchor vs = true -> numeric_col (map write_cell vs) = false.
Proof.
  unfold numeric_col. induction vs as [|v vs IH]; simpl; [discriminate|].
  intros H. apply orb_true_iff in H as [Hv|Hvs].
  - destruct v; try discriminate Hv. simpl in *.
    apply andb_true_iff in Hv as [Hna Hint].
    apply negb_true_iff in Hna, Hint. rewrite Hna, Hint. reflexivity.
  - rewrite (IH Hvs). apply andb_false_r.
Qed.

Lemma numeric_cell_writes (vs : list value) :
  forallb numeric_cell vs = true -> forallb writes_numeric vs = true.
Proof.
  rewrite !forallb_forall. intros H v Hv. specialize (H v Hv).
  destruct v; try reflexivity; discriminate H.
Qed.

Lemma read_write_numeric (v : value) :
  numeric_cell v = true -> read_cell true (write_cell v) = v.
Proof.
  destruct v; try discriminate; intros _; [reflexivity|].
  unfold read_cell. simpl. rewrite is_na_of_Z, int_literal_of_Z. reflexivity.
Qed.

Lemma read_write_text (v : value) :
  text_cell v = true -> read_cell false (write_cell v) = v.
Proof.
  destruct v; try discriminate; intros H; [reflexivity|].
  unfold read_cell. simpl in *. apply negb_true_iff in H. rewrite H. reflexivity.
Qed.

(** A column of integers and missing cells is read as it was written. *)
Lemma reread_numeric (vs : list value) :
  forallb numeric_cell vs = true -> reread vs = vs.
Proof.
  intros H. unfold reread.
  rewrite (numeric_col_written _ (numeric_cell_writes _ H)).
  apply map_fixed. apply Forall_forall. intros v Hv.
  apply read_write_numeric. rewrite forallb_forall in H. auto.
Qed.

(** So is a column of texts and missing cells that has an anchor. *)
Lemma reread_text (vs : list value) :
  forallb text_cell vs = true -> existsb anchor vs = true -> reread vs = vs.
Proof.
  intros H Ha. unfold reread. rewrite (numeric_col_anchored _ Ha).
  apply map_fixed. apply Forall_forall. intros v Hv.
  apply read_write_text. rewrite forallb_forall in H. auto.
Qed.

(** What [read_csv] makes of a column is of one of the two kinds. *)
Lemma read_shape (fields : list string) :
  let vs := map (read_cell (numeric_col fields)) fields in
  forallb numeric_cell vs = true \/
  (forallb text_cell vs = true /\ existsb anchor vs = true).
Proof.
  simpl. destruct (numeric_col fields) eqn:K.
  - left. apply forallb_forall. intros v Hv.
    apply in_map_iff in Hv as [s [<- Hs]].
    unfold numeric_col in K. rewrite forallb_forall in K. specialize (K s Hs).
    unfold read_cell. destruct (is_na s); [reflexivity|]. simpl in K.
    unfold is_int in K. destruct (int_literal s); [reflexivity|discriminate K].
  - right. split.
    + apply forallb_forall. intros v Hv.
      apply in_map_iff in Hv as [s [<- Hs]].
      unfold read_cell. destruct (is_na s) eqn:E; [reflexivity|].
      simpl. rewrite E. reflexivity.
    + unfold numeric_col in K. clear -K.
      induction fields as [|s fields IH]; simpl in *; [discriminate K|].
      apply andb_false_iff in K as [K|K].
      * apply orb_false_iff in K as [Hna Hint].
        unfold read_cell. rewrite Hna. simpl. rewrite Hna, Hint. reflexivity.
      * rewrite (IH K). apply orb_true_r.
Qed.

Lemma reread_read (fields : list string) :
  reread (map (read_cell (numeric_col fields)) fields)
  = map (read_cell (numeric_col fields)) fields.
Proof.
  destruct (read_shape fields) as [H|[H Ha]].
  - apply reread_numeric, H.
  - apply reread_text; assumption.
Qed.

(** A frame that was read from a file is read again as it is after it
    has been written. *)
Lemma read_to_csv_read (t : table) :
  read_csv (to_csv (read_csv t)) = read_csv t.
Proof.
  apply frame_ext. intros c.
  rewrite col_reread, col_read_csv. apply reread_read.
Qed.

End ColumnFacts.

(** ** The store: loading, appending, updating *)

Module StoreFacts.
Import Csv CsvFacts ColumnFacts.

Lemma load_written (f : frame) (s : session_state) :
  load_reminders (mk_state (Some (to_csv f)) s) = read_csv (to_csv f).
Proof. reflexivity. Qed.

(** Every column of what [load_reminders] returns is read as it is
    after it has been written. *)
Lemma loaded_col_stable (st : state) (c : column) :
  reread (col c (load_reminders st)) = col c (load_reminders st).
Proof.
  unfold load_reminders. destruct (csv_file st) as [t|]; [|reflexivity].
  rewrite col_read_csv. apply reread_read.
Qed.

Lemma loaded_stable (st : state) :
  read_csv (to_csv (load_reminders st)) = load_reminders st.
Proof. apply frame_ext. intros c. rewrite col_reread. apply loaded_col_stable. Qed.

Lemma loaded_col_shape (st : state) (c : column) :
  forallb numeric_cell (col c (load_reminders st)) = true \/
  forallb text_cell (col c (load_reminders st)) = true.
Proof.
  unfold load_reminders. destruct (csv_file st) as [t|]; [|left; reflexivity].
  rewrite col_read_csv.
  destruct (read_shape (col c t)) as [H|[H _]]; [left|right]; exact H.
Qed.

Lemma set_status_unmatched (id s : value) (f : frame) :
  existsb (matches id) f = false -> set_status id s f = f.
Proof.
  intros H. unfold set_status. rewrite <- (map_id f) at 2. apply map_ext_in.
  intros r Hr. fold (matches id r).
  destruct (matches id r) eqn:E; [|reflexivity].
  assert (existsb (matches id) f = true) by (apply existsb_exists; eauto).
  congruence.
Qed.

Lemma col_set_status_other (id s : value) (f : frame) (c : column) :
  c <> status -> col c (set_status id s f) = col c f.
Proof.
  intros Hc. unfold set_status, col. rewrite map_map. apply map_ext.
  intros r. destruct (py_eq _ _); [|reflexivity]. apply get_set_other, Hc.
Qed.

Lemma col_set_status (id s : value) (f : frame) :
  col status (set_status id s f)
  = map (fun r => if matches id r then s else get status r) f.
Proof.
  unfold set_status, col. rewrite map_map. apply map_ext.
  intros r. fold (matches id r).
  destruct (matches id r); [apply get_set_same|reflexivity].
Qed.

Lemma set_status_text (id s : value) (f : frame) :
  text_cell s = true ->
  forallb text_cell (col status f) = true ->
  forallb text_cell (col status (set_status id s f)) = true.
Proof.
  intros Hs H. rewrite col_set_status. rewrite forallb_forall in *.
  intros v Hv. apply in_map_iff in Hv as [r [<- Hr]].
  destruct (matches id r); [exact Hs|].
  apply H. unfold col. apply in_map, Hr.
Qed.

Lemma set_status_anchored (id s : value) (f : frame) :
  anchor s = true ->
  existsb (matches id) f = true ->
  existsb anchor (col status (set_status id s f)) = true.
Proof.
  intros Hs H. rewrite col_set_status.
  apply existsb_exists in H as [r [Hr Hm]].
  apply existsb_exists. exists s. split; [|exact Hs].
  apply in_map_iff. exists r. rewrite Hm. auto.
Qed.

Lemma anchor_text (s : value) : anchor s = true -> text_cell s = true.
Proof.
  destruct s; try discriminate. simpl. intros H.
  apply andb_true_iff in H as [H _]. exact H.
Qed.

(** What is loaded after an update, for a new status that is kept as a
    text and a status column of texts and missing cells. *)
Lemma load_update (id s : value) (st : state) :
  anchor s = true ->
  forallb text_cell (col status (load_reminders st)) = true ->
  load_reminders (update_reminder_status id s st)
  = set_status id s (load_reminders st).
Proof.
  intros Hs Ht. unfold update_reminder_status. cbv zeta. rewrite load_written.
  destruct (existsb (matches id) (load_reminders st)) eqn:Em.
  - apply frame_ext. intros c. rewrite col_reread.
    destruct (column_eqb c status) eqn:Ec.
    + apply column_eqb_eq in Ec. subst c. apply reread_text.
      * apply set_status_text; [apply anchor_text, Hs|exact Ht].
      * apply set_status_anchored; assumption.
    + assert (c <> status) as Hc
        by (intros ->; rewrite column_eqb_refl in Ec; discriminate Ec).
      rewrite (col_set_status_other _ _ _ _ Hc). apply loaded_col_stable.
  - rewrite (set_status_unmatched _ _ _ Em). apply loaded_stable.
Qed.

Lemma load_update_unmatched (id s : value) (st : state) :
  existsb (matches id) (load_reminders st) = false ->
  load_reminders (update_reminder_status id s st) = load_reminders st.
Proof.
  intros Em. unfold update_reminder_status. cbv zeta. rewrite load_written.
  rewrite (set_status_unmatched _ _ _ Em). apply loaded_stable.
Qed.

Lemma set_status_undo (id s : value) (f : frame) :
  (forall r, In r f -> matches id r = true -> get status r = VStr "pending") ->
  set_status id (VStr "pending") (set_status id s f) = f.
Proof.
  intros H. unfold set_status. rewrite map_map.
  rewrite <- (map_id f) at 2. apply map_ext_in. intros r Hr.
  fold (matches id r). destruct (matches id r) eqn:E.
  - unfold matches. rewrite get_set_other by discriminate.
    fold (matches id r). rewrite E.
    apply row_ext. intros c. destruct (column_eqb c status) eqn:Ec.
    + apply column_eqb_eq in Ec. subst c. rewrite get_set_same.
      symmetry. apply H; assumption.
    + assert (c <> status) as Hc
        by (intros ->; rewrite column_eqb_refl in Ec; discriminate Ec).
      rewrite !get_set_other by exact Hc. reflexivity.
  - fold (matches id r). rewrite E. reflexivity.
Qed.

Lemma valid_statuses_text (vs : list value) :
  Forall valid_status vs -> forallb text_cell vs = true.
Proof.
  intros H. apply forallb_forall. rewrite Forall_forall in H.
  intros v Hv. destruct (H v Hv) as [-> | ->]; reflexivity.
Qed.

Lemma valid_status_anchor (v : value) : valid_status v -> anchor v = true.
Proof. intros [-> | ->]; reflexivity. Qed.

End StoreFacts.

(** ** The sample store *)

(** What is loaded after the two saves: the identifiers are 1 and 2,
    the date and the time that were left empty are missing, and so are
    the notes, which the handler does not store. *)
Example load_two_saved :
  load_reminders two_saved
  = [mk_row (VInt 1) (VStr "Dentist on Friday at 3pm") (VStr "Dentist")
            (VStr "appointment") (VStr "2024-01-05") (VStr "15:00")
            (VStr "High") VNaN (VStr "pending") (VStr "2024-01-01T09:30:00");
     mk_row (VInt 2) (VStr "call the bank") (VStr "Call the bank")
            (VStr "task") VNaN VNaN
            (VStr "Medium") VNaN (VStr "pending") (VStr "2024-01-02T08:00:00")].
Proof. vm_compute. reflexivity. Qed.

(** ** Updating the status *)

Section UpdateStatus.
Import Csv CsvFacts ColumnFacts StoreFacts.

(** C7: when no row of the stored collection has the given
    [reminder_id], [update_reminder_status] is a silent no-op: it
    returns (the function is total, no error is raised) and the
    collection loaded after the call is the collection loaded before
    it. *)
Theorem update_status_unmatched_noop (id new_status : value) (st : state) :
  (forall r, In r (load_reminders st) -> py_eq (get reminder_id r) id = false) ->
  load_reminders (update_reminder_status id new_status st) = load_reminders st.
Proof.
  intros H. apply load_update_unmatched.
  destruct (existsb (matches id) (load_reminders st)) eqn:E; [|reflexivity].
  apply existsb_exists in E as [r [Hr Hm]]. unfold matches in Hm.
  rewrite (H r Hr) in Hm. discriminate Hm.
Qed.

Lemma update_status_unmatched_noop_witness :
  (forall r, In r (load_reminders two_saved) ->
             py_eq (get reminder_id r) (VInt 7) = false) /\
  load_reminders (update_reminder_status (VInt 7) (VStr "completed") two_saved)
  = load_reminders two_saved.
Proof.
  assert (H : forall r, In r (load_reminders two_saved) ->
                        py_eq (get reminder_id r) (VInt 7) = false).
  { rewrite load_two_saved. intros r [<-|[<-|[]]]; reflexivity. }
  split; [exact H|].
  exact (update_status_unmatched_noop (VInt 7) (VStr "completed") two_saved H).
Defined.

(** C8: when the rows that have the given id are pending, marking the
    id completed and then pending again gives back the collection that
    was stored: every row, the matching ones included, is as it was. *)
Theorem complete_then_pending_restores (id : value) (st : state) :
  (forall r, In r (load_reminders st) ->
             py_eq (get reminder_id r) id = true ->
             get status r = VStr "pending") ->
  load_reminders
    (update_reminder_status id (VStr "pending")
       (update_reminder_status id (VStr "completed") st))
  = load_reminders st.
Proof.
  intros H.
  destruct (existsb (matches id) (load_reminders st)) eqn:Em.
  - assert (Ht : forallb text_cell (col status (load_reminders st)) = true).
    { destruct (loaded_col_shape st status) as [Hn|Ht]; [|exact Ht].
      apply existsb_exists in Em as [r [Hr Hm]].
      rewrite forallb_forall in Hn.
      specialize (Hn (get status r) (in_map _ _ _ Hr)).
      rewrite (H r Hr Hm) in Hn. discriminate Hn. }
    assert (L1 : load_reminders (update_reminder_status id (VStr "completed") st)
                 = set_status id (VStr "completed") (load_reminders st))
      by (apply load_update; [reflexivity|exact Ht]).
    rewrite load_update; [|reflexivity|].
    + rewrite L1. apply set_status_undo. exact H.
    + rewrite L1. apply set_status_text; [reflexivity|exact Ht].
  - rewrite load_update_unmatched; rewrite load_update_unmatched; auto.
Qed.

Lemma complete_then_pending_restores_witness :
  (forall r, In r (load_reminders two_saved) ->
             py_eq (get reminder_id r) (VInt 2) = true ->
             get status r = VStr "pending") /\
  load_reminders
    (update_reminder_status (VInt 2) (VStr "pending")
       (update_reminder_status (VInt 2) (VStr "completed") two_saved))
  = load_reminders two_saved.
Proof.
  assert (H : forall r, In r (load_reminders two_saved) ->
                        py_eq (get reminder_id r) (VInt 2) = true ->
                        get status r = VStr "pending").
  { rewrite load_two_saved. intros r [<-|[<-|[]]] _; reflexivity. }
  split; [exact H|].
  exact (complete_then_pending_restores (VInt 2) two_saved H).
Defined.

Example completed_in_between :
  col status (load_reminders
                (update_reminder_status (VInt 2) (VStr "completed") two_saved))
  = [VStr "pending"; VStr "completed"].
Proof. vm_compute. reflexivity. Qed.

End UpdateStatus.

Section UpdateStatusFrame.
Import Csv CsvFacts ColumnFacts StoreFacts.

(** The statuses the application passes are kept as texts. *)
Example pending_completed_anchor :
  anchor (VStr "pending") = true /\ anchor (VStr "completed") = true.
Proof. split; reflexivity. Qed.

(** C10: for every stored collection of reminders (each status is
    pending or completed), every id and every new status of the
    enumeration, [update_reminder_status] sets the status of every row
    whose [reminder_id] equals the given id, of all of them if there are
    several, and changes nothing else: the number of rows, their order,
    the other fields of the matching rows and the rows that do not
    match. *)
Theorem update_status_frame (id new_status : value) (st : state) :
  valid_status new_status ->
  Forall valid_status (col status (load_reminders st)) ->
  let before := load_reminders st in
  let after := load_reminders (update_reminder_status id new_status st) in
  List.length after = List.length before /\
  forall i r, nth_error before i = Some r ->
    exists r', nth_error after i = Some r' /\
      (forall c, c <> status -> get c r' = get c r) /\
      get status r'
      = (if py_eq (get reminder_id r) id then new_status else get status r).
Proof.
  intros Hs Ht. cbv zeta.
  rewrite (load_update _ _ _ (valid_status_anchor _ Hs)
             (valid_statuses_text _ Ht)).
  unfold set_status. split; [apply length_map|].
  intros i r Hi. rewrite nth_error_map, Hi. cbn [option_map].
  eexists. split; [reflexivity|].
  destruct (py_eq (get reminder_id r) id).
  - split; [|apply get_set_same]. intros c Hc. apply get_set_other, Hc.
  - split; reflexivity.
Qed.

Lemma update_status_frame_witness :
  let before := load_reminders two_saved in
  let after :=
    load_reminders
      (update_reminder_status (VInt 1) (VStr "completed") two_saved) in
  valid_status (VStr "completed") /\
  Forall valid_status (col status before) /\
  List.length after = List.length before /\
  forall i r, nth_error before i = Some r ->
    exists r', nth_error after i = Some r' /\
      (forall c, c <> status -> get c r' = get c r) /\
      get status r'
      = (if py_eq (get reminder_id r) (VInt 1)
         then VStr "completed" else get status r).
Proof.
  assert (Hs : valid_status (VStr "completed")) by (right; reflexivity).
  assert (Ht : Forall valid_status (col status (load_reminders two_saved))).
  { rewrite load_two_saved. repeat constructor. }
  cbv zeta. split; [exact Hs|]. split; [exact Ht|].
  exact (update_status_frame (VInt 1) (VStr "completed") two_saved Hs Ht).
Defined.

(** The matching row alone has the new status afterwards. *)
Example update_status_two_saved :
  col status
    (load_reminders
       (update_reminder_status (VInt 1) (VStr "completed") two_saved))
  = [VStr "completed"; VStr "pending"] /\
  col title
    (load_reminders
       (update_reminder_status (VInt 1) (VStr "completed") two_saved))
  = col title (load_reminders two_saved).
Proof. split; vm_compute; reflexivity. Qed.

End UpdateStatusFrame.

(** ** Appending and loading *)

Section Append.
Import Csv CsvFacts ColumnFacts StoreFacts.

Lemma load_save (reminder_data : list (string * value)) (st : state) :
  load_reminders (save_reminder_to_csv reminder_data st)
  = read_csv (to_csv (load_reminders st ++ [new_reminder reminder_data])).
Proof. reflexivity. Qed.

Lemma nth_error_last {A} (l : list A) (x : A) :
  nth_error (l ++ [x]) (List.length l) = Some x.
Proof. rewrite nth_error_app2, Nat.sub_diag by apply Nat.le_refl. reflexivity. Qed.

(** The row that is read back for the last row of a written frame. *)
Lemma read_last (f : frame) (r : row value) :
  nth_error (read_csv (to_csv (f ++ [r]))) (List.length f)
  = Some (tabulate (fun c =>
            read_cell (numeric_col (map write_cell (col c f ++ [get c r])))
                      (write_cell (get c r)))).
Proof.
  unfold read_csv. rewrite nth_error_map. unfold to_csv at 2.
  rewrite map_app. simpl map.
  replace (List.length f) with (List.length (map (row_map write_cell) f))
    by apply length_map.
  rewrite nth_error_last. cbn [option_map]. f_equal.
  apply row_ext. intros c. rewrite !get_tabulate.
  rewrite col_to_csv, col_app, get_row_map. reflexivity.
Qed.

Lemma read_missing (k : bool) (v : value) :
  isna v = true -> read_cell k (write_cell v) = VNaN.
Proof. destruct v; try discriminate; reflexivity. Qed.

Lemma read_na_text (k : bool) (s : string) :
  is_na s = true -> read_cell k (write_cell (VStr s)) = VNaN.
Proof. intros H. unfold read_cell. simpl. rewrite H. reflexivity. Qed.

Lemma read_anchor (vs : list value) (v : value) :
  anchor v = true ->
  read_cell (numeric_col (map write_cell (vs ++ [v]))) (write_cell v) = v.
Proof.
  intros H. rewrite numeric_col_anchored.
  - apply read_write_text, anchor_text, H.
  - rewrite existsb_app. simpl. rewrite H. apply orb_true_r.
Qed.

Lemma read_int (vs : list value) (z : Z) :
  forallb numeric_cell vs = true ->
  read_cell (numeric_col (map write_cell (vs ++ [VInt z]))) (write_cell (VInt z))
  = VInt z.
Proof.
  intros H. rewrite numeric_col_written.
  - apply read_write_numeric. reflexivity.
  - rewrite forallb_app. rewrite (numeric_cell_writes _ H). reflexivity.
Qed.

Lemma kept_text_anchor (v : value) : kept_text v = true -> anchor v = true.
Proof.
  destruct v as [| |z|s]; try discriminate. simpl.
  intros H. apply andb_true_iff in H as [H _]. exact H.
Qed.

Lemma vints_numeric (vs : list value) :
  forallb is_int64 vs = true -> forallb numeric_cell vs = true.
Proof.
  rewrite !forallb_forall. intros H v Hv.
  specialize (H v Hv). destruct v; try discriminate H; reflexivity.
Qed.

(** C1, as stated, fails: a reminder appended with empty notes is loaded
    with missing notes, so the loaded row is not the row that was given;
    and the file written for a null date is the file written for the
    empty text, so the two cannot be told apart when it is read. *)
Lemma append_empty_notes_not_kept :
  new_reminder empty_notes_row
  = mk_row (VInt 1) (VStr "pay the rent") (VStr "Pay the rent") (VStr "task")
           VNone VNone (VStr "High") (VStr "") (VStr "pending")
           (VStr "2024-01-01T09:30:00") /\
  load_reminders (save_reminder_to_csv empty_notes_row no_file)
  = [mk_row (VInt 1) (VStr "pay the rent") (VStr "Pay the rent") (VStr "task")
            VNaN VNaN (VStr "High") VNaN (VStr "pending")
            (VStr "2024-01-01T09:30:00")] /\
  get notes (new_reminder empty_notes_row) = VStr "" /\
  col notes (load_reminders (save_reminder_to_csv empty_notes_row no_file))
  = [VNaN] /\
  csv_file (save_reminder_to_csv empty_date_row no_file)
  = csv_file (save_reminder_to_csv empty_notes_row no_file) /\
  ~ In (new_reminder empty_notes_row)
       (load_reminders (save_reminder_to_csv empty_notes_row no_file)).
Proof.
  repeat split; try (vm_compute; reflexivity).
  vm_compute. intros [H|[]]. discriminate H.
Qed.

(** C1 (amended): after a row is appended, [load_reminders] returns one
    more row, and the new last row has, column by column: a missing
    value where the given field is null ([None] or [NaN]); a missing
    value too where it is the empty text or another text that the file
    reads as missing (null and the empty text are not told apart); the
    given text where it is a text that the file keeps as a text (not
    read as missing, and neither an integer nor a number-like literal
    such as 3.14, 15.30 or True); the given integer where it fits 64
    bits and the column held such integers only before. *)
Theorem append_then_load (reminder_data : list (string * value)) (st : state) :
  let given := new_reminder reminder_data in
  let before := load_reminders st in
  let after := load_reminders (save_reminder_to_csv reminder_data st) in
  List.length after = S (List.length before) /\
  exists loaded,
    nth_error after (List.length before) = Some loaded /\
    forall c,
      (isna (get c given) = true -> get c loaded = VNaN) /\
      (forall s, get c given = VStr s -> is_na s = true ->
                 get c loaded = VNaN) /\
      (kept_text (get c given) = true -> get c loaded = get c given) /\
      (forall z, get c given = VInt z -> in_int64 z = true ->
                 forallb is_int64 (col c before) = true ->
                 get c loaded = VInt z).
Proof.
  cbv zeta. rewrite load_save. split.
  - rewrite length_read_csv, length_to_csv, length_app. simpl. lia.
  - eexists. split; [apply read_last|].
    intros c. rewrite get_tabulate. repeat split.
    + apply read_missing.
    + intros s -> Hs. apply read_na_text, Hs.
    + intros H. apply read_anchor, kept_text_anchor, H.
    + intros z -> _ Hn. apply read_int, vints_numeric, Hn.
Qed.

Example append_then_load_two_saved :
  nth_error (load_reminders two_saved) 1
  = Some (mk_row (VInt 2) (VStr "call the bank") (VStr "Call the bank")
            (VStr "task") VNaN VNaN
            (VStr "Medium") VNaN (VStr "pending") (VStr "2024-01-02T08:00:00")).
Proof. vm_compute. reflexivity. Qed.

End Append.

(** ** The identifiers of saved reminders *)

Section Identifiers.
Import Csv CsvFacts ColumnFacts StoreFacts.

Lemma first_ids_S (n : nat) :
  first_ids (S n) = first_ids n ++ [VInt (Z.of_nat n + 1)].
Proof. unfold first_ids. rewrite seq_S, map_app. reflexivity. Qed.

Lemma first_ids_numeric (n : nat) : forallb numeric_cell (first_ids n) = true.
Proof.
  apply forallb_forall. intros v Hv.
  apply in_map_iff in Hv as [i [<- _]]. reflexivity.
Qed.

Lemma first_ids_NoDup (n : nat) : NoDup (first_ids n).
Proof.
  unfold first_ids. apply Finite.Injective_map_NoDup; [|apply seq_NoDup].
  intros i j H. injection H as H. lia.
Qed.

Lemma first_ids_nth (n i : nat) (v : value) :
  nth_error (first_ids n) i = Some v -> v = VInt (Z.of_nat i + 1).
Proof.
  unfold first_ids. rewrite nth_error_map.
  destruct (nth_error (seq 0 n) i) as [j|] eqn:E; [|discriminate].
  assert (i < List.length (seq 0 n))%nat as Hi
    by (apply nth_error_Some; congruence).
  rewrite (nth_error_nth' _ 0%nat Hi) in E. rewrite length_seq in Hi.
  rewrite seq_nth in E by exact Hi. injection E as <-.
  simpl. congruence.
Qed.

(** Saving from the form with a title appends the identifier
    [len(reminders) + 1] to a column of integers. *)
Lemma save_appends_id (st : state)
    (user_input title0 category0 date0 time0 priority0 notes0 now : string) :
  PyStr.truthy (PyStr.strip title0) = true ->
  forallb numeric_cell (col reminder_id (load_reminders st)) = true ->
  col reminder_id
    (load_reminders
       (save_button_handler user_input title0 category0 date0 time0
          priority0 notes0 now st))
  = col reminder_id (load_reminders st)
    ++ [VInt (Z.of_nat (List.length (load_reminders st)) + 1)].
Proof.
  intros Ht Hn. unfold save_button_handler. rewrite Ht. cbv zeta. cbn [negb].
  match goal with
  | |- context [save_reminder_to_csv ?d st] =>
      change (load_reminders (mk_state (csv_file (save_reminder_to_csv d st)) _))
        with (load_reminders (save_reminder_to_csv d st));
      rewrite (load_save d st);
      assert (Hid : get reminder_id (new_reminder d)
                    = VInt (Z.of_nat (List.length (load_reminders st)) + 1))
        by reflexivity;
      rewrite col_reread, col_app;
      change (col reminder_id [new_reminder d])
        with [get reminder_id (new_reminder d)];
      rewrite Hid
  end.
  apply reread_numeric. rewrite forallb_app, Hn. reflexivity.
Qed.

Lemma save_without_title (st : state)
    (user_input title0 category0 date0 time0 priority0 notes0 now : string) :
  PyStr.truthy (PyStr.strip title0) = false ->
  save_button_handler user_input title0 category0 date0 time0
    priority0 notes0 now st = st.
Proof. intros Ht. unfold save_button_handler. rewrite Ht. reflexivity. Qed.

Lemma reachable_ids (st : state) :
  reachable st ->
  col reminder_id (load_reminders st)
  = first_ids (List.length (load_reminders st)).
Proof.
  induction 1 as [s|st ui t c d tm p n now Hr IH]; [reflexivity|].
  destruct (PyStr.truthy (PyStr.strip t)) eqn:Ht.
  - assert (Hn : forallb numeric_cell (col reminder_id (load_reminders st)) = true)
      by (rewrite IH; apply first_ids_numeric).
    pose proof (save_appends_id st ui t c d tm p n now Ht Hn) as Hs.
    assert (Hl : List.length
                   (load_reminders (save_button_handler ui t c d tm p n now st))
                 = S (List.length (load_reminders st))).
    { rewrite <- (length_map (get reminder_id)). fold (col reminder_id
        (load_reminders (save_button_handler ui t c d tm p n now st))).
      rewrite Hs, length_app. unfold col. rewrite length_map. simpl. lia. }
    rewrite Hl, first_ids_S, Hs, IH. reflexivity.
  - rewrite save_without_title by exact Ht. exact IH.
Qed.

(** C6: a reminder saved from the form gets the number of stored rows
    plus one as its [reminder_id]; in every store reached from a missing
    file by such saves the row at position [i] (from 0) has the
    identifier [i + 1], and no identifier occurs twice. *)
Theorem reminder_ids_unique (st : state) :
  reachable st ->
  (forall user_input title0 category0 date0 time0 priority0 notes0 now,
      PyStr.truthy (PyStr.strip title0) = true ->
      col reminder_id
        (load_reminders
           (save_button_handler user_input title0 category0 date0 time0
              priority0 notes0 now st))
      = col reminder_id (load_reminders st)
        ++ [VInt (Z.of_nat (List.length (load_reminders st)) + 1)]) /\
  (forall i r, nth_error (load_reminders st) i = Some r ->
               get reminder_id r = VInt (Z.of_nat i + 1)) /\
  NoDup (col reminder_id (load_reminders st)).
Proof.
  intros Hr. pose proof (reachable_ids st Hr) as Hids. repeat split.
  - intros ui t c d tm p n now Ht. apply save_appends_id; [exact Ht|].
    rewrite Hids. apply first_ids_numeric.
  - intros i r Hi. apply (first_ids_nth (List.length (load_reminders st)) i).
    rewrite <- Hids. unfold col. rewrite nth_error_map, Hi. reflexivity.
  - rewrite Hids. apply first_ids_NoDup.
Qed.

Lemma two_saved_reachable : reachable two_saved.
Proof. unfold two_saved, one_saved, no_file. do 2 apply reach_save. apply reach_no_file. Defined.

Lemma reminder_ids_unique_witness :
  reachable two_saved /\
  col reminder_id (load_reminders two_saved) = [VInt 1; VInt 2] /\
  NoDup (col reminder_id (load_reminders two_saved)).
Proof.
  split; [exact two_saved_reachable|].
  split; [vm_compute; reflexivity|].
  exact (proj2 (proj2 (reminder_ids_unique two_saved two_saved_reachable))).
Defined.

End Identifiers.

(** ** The summary *)

Section Summary.

Variable fromisoformat : string -> option pydatetime.
Variable today : pydate.

Lemma pending_not_completed (r : row value) :
  is_pending r = true -> is_completed r = false.
Proof.
  unfold is_pending, is_completed. destruct (get status r); try discriminate.
  simpl. intros H. apply String.eqb_eq in H. subst s. reflexivity.
Qed.

Lemma total_split (reminders : frame) :
  total reminders = (pending reminders + completed reminders + others reminders)%nat.
Proof.
  unfold total, pending, completed, others.
  change (fun r => py_eq (get status r) (VStr "pending")) with is_pending.
  change (fun r => py_eq (get status r) (VStr "completed")) with is_completed.
  induction reminders as [|r rs IH]; [reflexivity|].
  cbn [filter List.length].
  destruct (is_pending r) eqn:Ep.
  - rewrite (pending_not_completed r Ep). cbn [negb andb List.length]. lia.
  - destruct (is_completed r); cbn [negb andb List.length]; lia.
Qed.

Lemma others_zero (reminders : frame) :
  others reminders = 0%nat <->
  Forall (fun r => is_pending r = true \/ is_completed r = true) reminders.
Proof.
  unfold others. induction reminders as [|r rs IH]; cbn [filter List.length].
  - split; auto.
  - destruct (is_pending r) eqn:Ep; cbn [negb andb].
    + rewrite IH. split; [intros H; constructor; auto|intros H; inversion H; auto].
    + destruct (is_completed r) eqn:Ec; cbn [negb andb List.length].
      * rewrite IH. split; [intros H; constructor; auto|intros H; inversion H; auto].
      * split; [discriminate|].
        intros H. inversion H as [|? ? [Hp|Hc] _]; subst; congruence.
Qed.

Lemma py_eq_text (v : value) (s : string) :
  py_eq v (VStr s) = true <-> v = VStr s.
Proof.
  destruct v; simpl; split; try discriminate.
  - intros H. apply String.eqb_eq in H. congruence.
  - intros H. injection H as ->. apply String.eqb_refl.
Qed.

Lemma others_zero_statuses (reminders : frame) :
  others reminders = 0%nat <->
  Forall (fun r => get status r = VStr "pending"
                   \/ get status r = VStr "completed") reminders.
Proof.
  rewrite others_zero, !Forall_forall. unfold is_pending, is_completed.
  split; intros H r Hr; specialize (H r Hr);
    rewrite !py_eq_text in *; exact H.
Qed.

Lemma combine_cols (reminders : frame) :
  combine (col date reminders) (col status reminders)
  = map (fun r => (get date r, get status r)) reminders.
Proof. induction reminders as [|r rs IH]; simpl; [reflexivity|]. f_equal. exact IH. Qed.

Lemma list_sum_indicator {A} (p : A -> bool) (l : list A) :
  list_sum (map (fun x => if p x then 1%nat else 0%nat) l)
  = List.length (filter p l).
Proof.
  induction l as [|x l IH]; [reflexivity|].
  simpl. rewrite IH. destruct (p x); reflexivity.
Qed.

Lemma overdue_count_filter (reminders : frame) :
  overdue_count fromisoformat today reminders
  = List.length
      (filter (fun r => is_pending r
                        && is_overdue fromisoformat today (get date r))
              reminders).
Proof.
  unfold overdue_count. rewrite combine_cols, map_map.
  cbn [fst snd].
  rewrite (list_sum_indicator
             (fun r => is_overdue fromisoformat today (get date r)
                       && py_eq (get status r) (VStr "pending"))).
  f_equal. apply filter_ext. intros r. apply andb_comm.
Qed.

Lemma filter_and_le {A} (p q : A -> bool) (l : list A) :
  (List.length (filter (fun x => p x && q x) l) <= List.length (filter p l))%nat.
Proof.
  induction l as [|x l IH]; simpl; [lia|].
  destruct (p x), (q x); simpl; lia.
Qed.

(** The counts of any frame, whatever its statuses are: the total is
    the sum of the two counts exactly when every row is pending or
    completed. *)
Lemma counts_of_any_frame (reminders : frame) :
  (pending reminders + completed reminders <= total reminders)%nat /\
  (total reminders = (pending reminders + completed reminders)%nat <->
   Forall (fun r => get status r = VStr "pending"
                    \/ get status r = VStr "completed") reminders).
Proof.
  pose proof (total_split reminders) as Ht.
  split; [lia|]. rewrite <- others_zero_statuses. lia.
Qed.

Lemma overdue_without_completed (reminders : frame) :
  overdue_count fromisoformat today
    (filter (fun r => negb (is_completed r)) reminders)
  = overdue_count fromisoformat today reminders.
Proof.
  rewrite !overdue_count_filter.
  induction reminders as [|r rs IH]; [reflexivity|].
  cbn [filter]. destruct (is_pending r) eqn:Ep.
  - rewrite (pending_not_completed r Ep). cbn [negb filter]. rewrite Ep.
    cbn [andb]. destruct (is_overdue fromisoformat today (get date r));
      cbn [List.length]; rewrite IH; reflexivity.
  - cbn [andb]. destruct (is_completed r); cbn [negb]; [exact IH|].
    cbn [filter]. rewrite Ep. exact IH.
Qed.

(** C3: for every collection of reminders, each with the status pending
    or completed, the summary has total = pending + completed and
    overdue <= pending; overdue counts exactly the rows that are pending
    and whose date is overdue; completed rows are never counted as
    overdue: the count is the same without them, and it is zero for a
    completed row alone. *)
Theorem summary_counts (reminders : frame) :
  Forall (fun r => valid_status (get status r)) reminders ->
  total reminders = (pending reminders + completed reminders)%nat /\
  (overdue_count fromisoformat today reminders <= pending reminders)%nat /\
  overdue_count fromisoformat today reminders
  = List.length
      (filter (fun r => py_eq (get status r) (VStr "pending")
                        && is_overdue fromisoformat today (get date r))
              reminders) /\
  overdue_count fromisoformat today reminders
  = overdue_count fromisoformat today
      (filter (fun r => negb (py_eq (get status r) (VStr "completed")))
              reminders) /\
  (forall r, get status r = VStr "completed" ->
     overdue_count fromisoformat today [r] = 0%nat).
Proof.
  intros Hvalid.
  pose proof (total_split reminders) as Ht.
  split; [|split; [|split; [|split]]].
  - apply (proj2 (others_zero_statuses reminders)) in Hvalid. lia.
  - rewrite overdue_count_filter. apply filter_and_le.
  - apply overdue_count_filter.
  - symmetry. apply overdue_without_completed.
  - intros r Hr. rewrite overdue_count_filter. simpl.
    unfold is_pending. rewrite Hr. reflexivity.
Qed.

End Summary.

Lemma summary_counts_witness :
  let reminders :=
    load_reminders
      (update_reminder_status (VInt 1) (VStr "completed") two_saved) in
  let fromisoformat := IsoDate.fromisoformat in
  let today := mk_date 2024 2 1 in
  col status reminders = [VStr "completed"; VStr "pending"] /\
  total reminders = (pending reminders + completed reminders)%nat /\
  (overdue_count fromisoformat today reminders <= pending reminders)%nat /\
  overdue_count fromisoformat today reminders
  = List.length
      (filter (fun r => py_eq (get status r) (VStr "pending")
                        && is_overdue fromisoformat today (get date r))
              reminders) /\
  overdue_count fromisoformat today reminders
  = overdue_count fromisoformat today
      (filter (fun r => negb (py_eq (get status r) (VStr "completed")))
              reminders) /\
  (forall r, get status r = VStr "completed" ->
     overdue_count fromisoformat today [r] = 0%nat).
Proof.
  cbv zeta. split; [vm_compute; reflexivity|].
  apply (summary_counts IsoDate.fromisoformat (mk_date 2024 2 1)).
  vm_compute. constructor; [right; reflexivity|].
  constructor; [left; reflexivity|]. constructor.
Defined.

(** ** Overdue dates *)

Section Overdue.

Variable fromisoformat : string -> option pydatetime.
Variable today : pydate.

Lemma date_ltb_lt (a b : pydate) : date_ltb a b = true <-> date_lt a b.
Proof.
  unfold date_ltb, date_lt.
  rewrite !orb_true_iff, !andb_true_iff, !orb_true_iff, !andb_true_iff.
  rewrite !Z.ltb_lt, !Z.eqb_eq. reflexivity.
Qed.

Lemma date_not_lt (a b : pydate) :
  a = b \/ date_lt b a -> date_ltb a b = false.
Proof.
  intros H. destruct (date_ltb a b) eqn:E; [|reflexivity].
  apply date_ltb_lt in E. unfold date_lt in *.
  destruct H as [-> | H]; lia.
Qed.

Lemma is_overdue_absent (v : value) :
  absent v = true -> is_overdue fromisoformat today v = false.
Proof. unfold is_overdue, absent. intros ->. reflexivity. Qed.

Lemma is_overdue_present (v : value) :
  absent v = false ->
  is_overdue fromisoformat today v
  = match fromisoformat (py_str v) with
    | Some dt => date_ltb (date_part dt) today
    | None => false
    end.
Proof. unfold is_overdue, absent. intros ->. reflexivity. Qed.

(** C2: [is_overdue] is false for an absent date ([None], the missing
    marker, the empty text, "null"), false for a text that
    [fromisoformat] does not read, and false for a date that is today or
    later; it is true exactly when the value is present and is read as
    a date strictly before today.  Only the date of what is read is
    compared: the time of day plays no part. *)
Theorem is_overdue_spec (v : value) :
  (v = VNone \/ v = VNaN \/ v = VStr "" \/ v = VStr "null" ->
   is_overdue fromisoformat today v = false) /\
  (fromisoformat (py_str v) = None ->
   is_overdue fromisoformat today v = false) /\
  (forall dt, fromisoformat (py_str v) = Some dt ->
     date_part dt = today \/ date_lt today (date_part dt) ->
     is_overdue fromisoformat today v = false) /\
  (is_overdue fromisoformat today v = true <->
   absent v = false /\
   exists dt, fromisoformat (py_str v) = Some dt
              /\ date_lt (date_part dt) today).
Proof.
  repeat split.
  - intros [-> | [-> | [-> | ->]]]; reflexivity.
  - intros Hp. destruct (absent v) eqn:Ea; [apply is_overdue_absent, Ea|].
    rewrite (is_overdue_present _ Ea), Hp. reflexivity.
  - intros dt Hp Hd. destruct (absent v) eqn:Ea; [apply is_overdue_absent, Ea|].
    rewrite (is_overdue_present _ Ea), Hp. apply date_not_lt, Hd.
  - destruct (absent v) eqn:Ea;
      [rewrite (is_overdue_absent _ Ea) in H; discriminate H|reflexivity].
  - destruct (absent v) eqn:Ea;
      [rewrite (is_overdue_absent _ Ea) in H; discriminate H|].
    rewrite (is_overdue_present _ Ea) in H.
    destruct (fromisoformat (py_str v)) as [dt|]; [|discriminate H].
    exists dt. split; [reflexivity|]. apply date_ltb_lt, H.
  - intros [Ea [dt [Hp Hd]]]. rewrite (is_overdue_present _ Ea), Hp.
    apply date_ltb_lt, Hd.
Qed.

End Overdue.

Section OverdueExamples.

Let new_year : pydate := mk_date 2024 1 1.

Example overdue_yesterday :
  is_overdue IsoDate.fromisoformat new_year (VStr "2023-12-31") = true.
Proof. vm_compute. reflexivity. Qed.

Example not_overdue_today :
  is_overdue IsoDate.fromisoformat new_year (VStr "2024-01-01") = false.
Proof. vm_compute. reflexivity. Qed.

Example not_overdue_later :
  is_overdue IsoDate.fromisoformat new_year (VStr "2024-02-29") = false.
Proof. vm_compute. reflexivity. Qed.

Example not_overdue_unreadable :
  map (is_overdue IsoDate.fromisoformat new_year)
      [VStr "next week"; VStr "2023-02-30"; VStr "null"; VStr ""; VNaN; VNone;
       VInt 0]
  = [false; false; false; false; false; false; false].
Proof. vm_compute. reflexivity. Qed.

(** With the dates of the form, a value the guard takes for absent is
    not read as a date, so the guard can be left out of the
    characterization. *)
Lemma absent_not_a_date (v : value) :
  absent v = true -> IsoDate.fromisoformat (py_str v) = None.
Proof.
  destruct v as [| |z|s]; try reflexivity.
  - unfold absent. simpl.
    destruct (Z.eqb_spec z 0) as [-> | Hz]; [reflexivity|discriminate].
  - destruct s as [|a s]; [reflexivity|].
    unfold absent. cbn [truthy PyStr.truthy negb isna orb py_eq].
    rewrite orb_false_r. intros H.
    apply String.eqb_eq in H. rewrite H. reflexivity.
Qed.

Lemma is_overdue_iso_dates (today : pydate) (v : value) :
  is_overdue IsoDate.fromisoformat today v = true <->
  exists dt, IsoDate.fromisoformat (py_str v) = Some dt
             /\ date_lt (date_part dt) today.
Proof.
  destruct (absent v) eqn:Ea.
  - rewrite (is_overdue_absent _ _ _ Ea), (absent_not_a_date _ Ea).
    split; [discriminate|]. intros [dt [Hp _]]. discriminate Hp.
  - rewrite (is_overdue_present _ _ _ Ea).
    destruct (IsoDate.fromisoformat (py_str v)) as [dt|].
    + rewrite date_ltb_lt. split; [eauto|].
      intros [dt' [Hp Hd]]. injection Hp as <-. exact Hd.
    + split; [discriminate|]. intros [dt [Hp _]]. discriminate Hp.
Qed.

End OverdueExamples.

(** ** The order of the dashboard *)

Section SortFacts.

Lemma map_snd_combine {A B} (a : list A) (b : list B) :
  List.length a = List.length b -> map snd (combine a b) = b.
Proof.
  revert b. induction a as [|x a IH]; intros [|y b] H; try discriminate H.
  - reflexivity.
  - simpl. f_equal. apply IH. injection H as H. exact H.
Qed.

Lemma map_fst_combine {A B} (a : list A) (b : list B) :
  List.length a = List.length b -> map fst (combine a b) = a.
Proof.
  revert b. induction a as [|x a IH]; intros [|y b] H; try discriminate H.
  - reflexivity.
  - simpl. f_equal. apply IH. injection H as H. exact H.
Qed.

Lemma combine_map_r {K A B} (f : A -> B) (a : list K) (b : list A) :
  combine a (map f b) = map (on_snd f) (combine a b).
Proof.
  revert b. induction a as [|x a IH]; intros [|y b]; try reflexivity.
  simpl. f_equal. apply IH.
Qed.

Lemma split_by_key {A} (keyed : list (option Z * A)) :
  Permutation (map snd (with_key keyed) ++ without_key keyed) (map snd keyed).
Proof.
  induction keyed as [|[[k|] r] keyed IH]; simpl.
  - constructor.
  - constructor. exact IH.
  - fold (with_key keyed). fold (without_key keyed).
    apply Permutation_sym, Permutation_cons_app, Permutation_sym, IH.
Qed.

Lemma without_key_filter {A} (keyed : list (option Z * A)) :
  without_key keyed = map snd (filter no_key keyed).
Proof.
  induction keyed as [|[[k|] r] keyed IH]; simpl; [reflexivity|exact IH|].
  f_equal. exact IH.
Qed.

Lemma in_with_key {A} (k : Z) (x : A) (keyed : list (option Z * A)) :
  In (k, x) (with_key keyed) -> In (Some k, x) keyed.
Proof.
  induction keyed as [|[[k'|] r] keyed IH]; simpl; auto.
  intros [H|H]; [left; congruence|right; auto].
Qed.

Lemma in_without_key {A} (x : A) (keyed : list (option Z * A)) :
  In x (without_key keyed) -> In (None, x) keyed.
Proof.
  induction keyed as [|[[k'|] r] keyed IH]; simpl; auto.
  intros [H|H]; [left; congruence|right; auto].
Qed.

Lemma with_key_map {A B} (f : A -> B) (keyed : list (option Z * A)) :
  with_key (map (on_snd f) keyed) = map (on_snd f) (with_key keyed).
Proof.
  induction keyed as [|[[k|] r] keyed IH]; simpl; [reflexivity| |exact IH].
  f_equal. exact IH.
Qed.

Lemma without_key_map {A B} (f : A -> B) (keyed : list (option Z * A)) :
  without_key (map (on_snd f) keyed) = map f (without_key keyed).
Proof.
  induction keyed as [|[[k|] r] keyed IH]; simpl; [reflexivity|exact IH|].
  f_equal. exact IH.
Qed.

(** The insertion sort lists its argument in ascending order of the
    keys, and it does not look at the rows. *)
Lemma insert_key_permutation {A} (x : Z * A) (l : list (Z * A)) :
  Permutation (insert_key x l) (x :: l).
Proof.
  induction l as [|y l IH]; simpl; [apply Permutation_refl|].
  destruct (fst x <=? fst y); [apply Permutation_refl|].
  rewrite IH. apply perm_swap.
Qed.

Lemma insertion_argsort_permutation {A} (l : list (Z * A)) :
  Permutation (insertion_argsort l) l.
Proof.
  induction l as [|x l IH]; simpl; [constructor|].
  rewrite insert_key_permutation. constructor. exact IH.
Qed.

Lemma insert_key_sorted {A} (x : Z * A) (l : list (Z * A)) :
  StronglySorted key_le l -> StronglySorted key_le (insert_key x l).
Proof.
  induction 1 as [|y l Hs IH Hy]; simpl.
  - constructor; constructor.
  - destruct (fst x <=? fst y) eqn:E.
    + apply Z.leb_le in E. constructor; [constructor; assumption|].
      constructor; [exact E|].
      eapply Forall_impl; [|exact Hy]. unfold key_le. intros z Hz. lia.
    + apply Z.leb_gt in E. constructor; [exact IH|].
      rewrite (insert_key_permutation x l). constructor; [|exact Hy].
      unfold key_le. lia.
Qed.

Lemma insertion_argsort_sorted {A} (l : list (Z * A)) :
  StronglySorted key_le (insertion_argsort l).
Proof.
  induction l as [|x l IH]; simpl; [constructor|].
  apply insert_key_sorted, IH.
Qed.

Lemma insert_key_map {A B} (f : A -> B) (x : Z * A) (l : list (Z * A)) :
  insert_key (on_snd f x) (map (on_snd f) l) = map (on_snd f) (insert_key x l).
Proof.
  induction l as [|y l IH]; [reflexivity|].
  cbn [map insert_key]. change (fst (on_snd f x)) with (fst x).
  change (fst (on_snd f y)) with (fst y).
  destruct (fst x <=? fst y); [reflexivity|].
  cbn [map]. f_equal. exact IH.
Qed.

Lemma insertion_argsort_map {A B} (f : A -> B) (l : list (Z * A)) :
  insertion_argsort (map (on_snd f) l) = map (on_snd f) (insertion_argsort l).
Proof.
  induction l as [|x l IH]; [reflexivity|].
  cbn [map]. unfold insertion_argsort in *. cbn [fold_right].
  rewrite IH. apply insert_key_map.
Qed.

Lemma sort_values_map {A B} (f : A -> B) (keyed : list (option Z * A)) :
  sort_values insertion_argsort (map (on_snd f) keyed)
  = map f (sort_values insertion_argsort keyed).
Proof.
  unfold sort_values.
  rewrite with_key_map, without_key_map, insertion_argsort_map, map_app.
  f_equal. rewrite !map_map. reflexivity.
Qed.

Lemma sort_values_permutation {A} (keyed : list (option Z * A)) :
  Permutation (sort_values insertion_argsort keyed) (map snd keyed).
Proof.
  unfold sort_values. eapply Permutation_trans; [|apply split_by_key].
  apply Permutation_app_tail, Permutation_map, insertion_argsort_permutation.
Qed.

(** The rows of a collection beside their positions and their keys. *)
Lemma in_combine_seq {A B} (la : list A) (lb : list B) (s m : nat)
    (a : A) (i : nat) (b : B) :
  In (a, (i, b)) (combine la (combine (seq s m) lb)) ->
  (s <= i)%nat /\ nth_error la (i - s) = Some a /\ nth_error lb (i - s) = Some b.
Proof.
  revert lb s m. induction la as [|x la IH]; intros lb s m H; [destruct H|].
  destruct m as [|m]; [destruct H|]. destruct lb as [|y lb]; [destruct H|].
  cbn [seq combine] in H. destruct H as [H|H].
  - injection H as -> -> ->. rewrite Nat.sub_diag. auto.
  - apply IH in H as [Hs [Ha Hb]].
    replace (i - s)%nat with (S (i - S s)) by lia.
    split; [lia|]. split; assumption.
Qed.

Lemma seq_sorted (s n : nat) : StronglySorted lt (seq s n).
Proof.
  revert s. induction n as [|n IH]; intros s; [constructor|].
  cbn [seq]. constructor; [apply IH|].
  apply Forall_forall. intros i Hi. apply in_seq in Hi. lia.
Qed.

Lemma without_key_sorted {A} (keyed : list (option Z * (nat * A))) :
  StronglySorted lt (map (fun x => fst (snd x)) keyed) ->
  StronglySorted lt (map fst (without_key keyed)).
Proof.
  induction keyed as [|[[k|] [i r]] keyed IH]; intros H.
  - constructor.
  - apply IH. inversion H; assumption.
  - cbn [map fst snd] in H. inversion H as [|? ? Hs Hf]; subst.
    change (StronglySorted lt (i :: map fst (without_key keyed))).
    constructor; [apply IH, Hs|].
    rewrite Forall_forall in *. intros j Hj.
    apply in_map_iff in Hj as [[j' r'] [<- Hj]].
    apply in_without_key in Hj. apply Hf.
    apply in_map_iff. exists (None, (j', r')). split; [reflexivity|exact Hj].
Qed.

Lemma sorted_app {A} (R : A -> A -> Prop) (l1 l2 : list A) :
  StronglySorted R l1 -> StronglySorted R l2 ->
  (forall x y, In x l1 -> In y l2 -> R x y) ->
  StronglySorted R (l1 ++ l2).
Proof.
  induction 1 as [|x l1 Hs IH Hx]; intros H2 Hc; [exact H2|].
  cbn [app]. constructor.
  - apply IH; [exact H2|]. intros a b Ha Hb. apply Hc; [right; exact Ha|exact Hb].
  - apply Forall_app. split; [exact Hx|].
    apply Forall_forall. intros y Hy. apply Hc; [left; reflexivity|exact Hy].
Qed.

Lemma sorted_keys_listed (keys : list (option Z))
    (l : list (Z * (nat * row value))) :
  StronglySorted key_le l ->
  Forall (fun x => key_at keys (fst (snd x)) = Some (fst x)) l ->
  StronglySorted (listed_before keys) (map (fun x => fst (snd x)) l).
Proof.
  induction 1 as [|x l Hs IH Hx]; intros Hk; [constructor|].
  inversion Hk as [|? ? Kx Kl]; subst. cbn [map]. constructor; [apply IH, Kl|].
  rewrite Forall_forall in *. intros j Hj.
  apply in_map_iff in Hj as [y [<- Hy]].
  unfold listed_before. rewrite Kx, (Kl y Hy). apply Hx, Hy.
Qed.

End SortFacts.

Section Sorting.

Variable to_datetime : list value -> list (option Z).

Hypothesis to_datetime_length :
  forall dates, List.length (to_datetime dates) = List.length dates.

(** C4: the dashboard lists every row of the collection once, and of
    two rows it lists the one first whose time stamp is smaller where
    both dates are read; every row whose date is read comes before every
    row whose date is absent or not read; and the rows whose date is
    absent or not read come in the order they have in the collection.
    [order] gives, for each line of the list, the position of its row in
    the collection. *)
Theorem reminders_sorted_by_date (reminders : frame) :
  let keys := to_datetime (col date reminders) in
  let listed := reminders_sorted to_datetime insertion_argsort reminders in
  exists order : list nat,
    Permutation order (seq 0 (List.length reminders)) /\
    map (nth_error reminders) order = map Some listed /\
    StronglySorted (listed_before keys) order.
Proof.
  cbv zeta. set (keys := to_datetime (col date reminders)).
  set (n := List.length reminders).
  assert (Hlen : List.length keys = n).
  { unfold keys. rewrite to_datetime_length. apply length_map. }
  assert (Hseq : List.length (seq 0 n) = List.length reminders)
    by apply length_seq.
  set (tagged := combine keys (combine (seq 0 n) reminders)).
  assert (Hin : forall k i r, In (k, (i, r)) tagged ->
                  key_at keys i = k /\ nth_error reminders i = Some r).
  { intros k i r H. apply in_combine_seq in H as [_ [Hk Hr]].
    rewrite Nat.sub_0_r in Hk, Hr. unfold key_at. rewrite Hk. auto. }
  assert (Hsnd : map snd tagged = combine (seq 0 n) reminders).
  { apply map_snd_combine. rewrite length_combine, Hseq, Nat.min_id.
    exact Hlen. }
  assert (Hlisted : reminders_sorted to_datetime insertion_argsort reminders
                    = map snd (sort_values insertion_argsort tagged)).
  { unfold reminders_sorted. cbv zeta. fold keys.
    rewrite <- sort_values_map. f_equal. unfold tagged.
    rewrite <- combine_map_r. f_equal. symmetry.
    apply map_snd_combine, Hseq. }
  exists (map fst (sort_values insertion_argsort tagged)).
  split; [|split].
  - fold n. rewrite <- (map_fst_combine (seq 0 n) reminders Hseq).
    rewrite <- Hsnd. apply Permutation_map, sort_values_permutation.
  - rewrite Hlisted, !map_map. apply map_ext_in. intros [i r] Hi.
    cbn [fst snd].
    apply (Permutation_in _ (sort_values_permutation tagged)) in Hi.
    apply in_map_iff in Hi as [[k [i' r']] [E Hi]]. cbn [snd] in E.
    injection E as -> ->. apply (Hin k i r Hi).
  - unfold sort_values. rewrite map_app. apply sorted_app.
    + rewrite map_map. apply sorted_keys_listed.
      * apply insertion_argsort_sorted.
      * apply Forall_forall. intros [k [i r]] Hx. cbn [fst snd].
        apply (Permutation_in _ (insertion_argsort_permutation _)) in Hx.
        apply in_with_key in Hx. apply (Hin _ _ _ Hx).
    + assert (Hs : StronglySorted lt (map fst (without_key tagged))).
      { apply without_key_sorted.
        rewrite <- (map_map snd fst), Hsnd, (map_fst_combine _ _ Hseq).
        apply seq_sorted. }
      assert (Hn : Forall (fun i => key_at keys i = None)
                          (map fst (without_key tagged))).
      { apply Forall_forall. intros i Hi.
        apply in_map_iff in Hi as [[i' r] [<- Hi]].
        apply in_without_key in Hi. apply (Hin _ _ _ Hi). }
      revert Hs Hn. generalize (map fst (without_key tagged)).
      induction 1 as [|i l Hs IH Hi]; intros Hn; [constructor|].
      inversion Hn as [|? ? Ki Kl]; subst. constructor; [apply IH, Kl|].
      rewrite Forall_forall in *. intros j Hj.
      unfold listed_before. rewrite Ki, (Kl j Hj). apply Hi, Hj.
    + intros i j Hi Hj.
      rewrite map_map in Hi. apply in_map_iff in Hi as [[k [i' r]] [<- Hi]].
      apply (Permutation_in _ (insertion_argsort_permutation _)) in Hi.
      apply in_with_key in Hi. apply Hin in Hi as [Ki _].
      apply in_map_iff in Hj as [[j' r'] [<- Hj]].
      apply in_without_key in Hj. apply Hin in Hj as [Kj _].
      cbn [fst snd]. unfold listed_before. rewrite Ki, Kj. exact I.
Qed.

End Sorting.

Section SortingExamples.

Lemma iso_to_datetime_length (dates : list value) :
  List.length (iso_to_datetime dates) = List.length dates.
Proof. apply length_map. Qed.

Example sample_frame_sorted :
  col reminder_id (reminders_sorted iso_to_datetime insertion_argsort sample_frame)
  = [VInt 3; VInt 1; VInt 2; VInt 4].
Proof. vm_compute. reflexivity. Qed.

Lemma reminders_sorted_by_date_witness :
  (forall dates, List.length (iso_to_datetime dates) = List.length dates) /\
  exists order : list nat,
    Permutation order (seq 0 (List.length sample_frame)) /\
    map (nth_error sample_frame) order
    = map Some (reminders_sorted iso_to_datetime insertion_argsort sample_frame) /\
    StronglySorted
      (listed_before (iso_to_datetime (col date sample_frame))) order.
Proof.
  split; [exact iso_to_datetime_length|].
  exact (reminders_sorted_by_date iso_to_datetime iso_to_datetime_length
           sample_frame).
Defined.

End SortingExamples.

(** ** Parsing and the draft of the session *)

Example clean_fenced_with_tag : clean_json_text fenced_reply = object_text.
Proof. vm_compute. reflexivity. Qed.

Example clean_fenced_without_tag :
  clean_json_text ("```" ++ nl ++ object_text ++ nl ++ "```")%string
  = object_text.
Proof. vm_compute. reflexivity. Qed.

Example clean_without_fence :
  clean_json_text ("  " ++ object_text ++ nl)%string = object_text.
Proof. vm_compute. reflexivity. Qed.

Section Parse.

Variable generate_content : string -> option string.
Variable json_loads : string -> option json.

(** C5: when the object decoded from the response has no key
    [confidence], the draft that [parse_with_gemini] returns is that
    object and the confidence read from it is 0.8. *)
Theorem confidence_defaults (today user_input text : string)
    (d : list (string * json)) :
  generate_content (prompt user_input today) = Some text ->
  json_loads (clean_json_text text) = Some (JDict d) ->
  Json.lookup "confidence" d = None ->
  parse_with_gemini generate_content json_loads today user_input = JDict d /\
  confidence (parse_with_gemini generate_content json_loads today user_input)
  = JNum (8 # 10).
Proof.
  intros Hg Hj Hc. unfold parse_with_gemini. rewrite Hg, Hj.
  split; [reflexivity|]. unfold confidence, Json.get. rewrite Hc. reflexivity.
Qed.

(** C9: when the call to the endpoint fails, or the text taken from its
    response is not decoded as JSON, [parse_with_gemini] returns [None]
    and the handler of the parse button leaves the state, and with it
    the draft held in the session, as it was. *)
Theorem failed_parse_keeps_draft (today user_input : string)
    (parse_button : bool) (st : state) :
  generate_content (prompt user_input today) = None \/
  (exists text, generate_content (prompt user_input today) = Some text
                /\ json_loads (clean_json_text text) = None) ->
  parse_with_gemini generate_content json_loads today user_input = JNull /\
  parse_button_handler generate_content json_loads today parse_button
    user_input st = st /\
  parsed_reminder
    (session (parse_button_handler generate_content json_loads today
                parse_button user_input st))
  = parsed_reminder (session st).
Proof.
  intros H.
  assert (Hp : parse_with_gemini generate_content json_loads today user_input
               = JNull).
  { unfold parse_with_gemini.
    destruct H as [-> | [text [-> ->]]]; reflexivity. }
  assert (Hs : parse_button_handler generate_content json_loads today
                 parse_button user_input st = st).
  { unfold parse_button_handler. rewrite Hp.
    destruct (parse_button && PyStr.truthy (PyStr.strip user_input));
      reflexivity. }
  rewrite Hs. auto.
Qed.

End Parse.

Section ParseExamples.

Example parse_fenced_reply :
  parse_with_gemini fenced_endpoint sample_loads "2024-01-01" "Dentist"
  = JDict [("title", JStr "Dentist")].
Proof. vm_compute. reflexivity. Qed.

Example parse_stores_draft :
  parsed_reminder
    (session (parse_button_handler fenced_endpoint sample_loads "2024-01-01"
                true "Dentist" with_draft))
  = JDict [("title", JStr "Dentist")].
Proof. vm_compute. reflexivity. Qed.

Lemma confidence_defaults_witness :
  parse_with_gemini fenced_endpoint sample_loads "2024-01-01" "Dentist"
  = JDict [("title", JStr "Dentist")] /\
  confidence
    (parse_with_gemini fenced_endpoint sample_loads "2024-01-01" "Dentist")
  = JNum (8 # 10).
Proof.
  apply (confidence_defaults fenced_endpoint sample_loads
           "2024-01-01" "Dentist" fenced_reply [("title", JStr "Dentist")]).
  - reflexivity.
  - vm_compute. reflexivity.
  - reflexivity.
Defined.

Lemma failed_parse_keeps_draft_witness :
  parse_with_gemini chatty_endpoint sample_loads "2024-01-01" "Dentist" = JNull /\
  parse_button_handler chatty_endpoint sample_loads "2024-01-01" true
    "Dentist" with_draft = with_draft /\
  parsed_reminder
    (session (parse_button_handler chatty_endpoint sample_loads "2024-01-01"
                true "Dentist" with_draft))
  = JDict [("title", JStr "Groceries")].
Proof.
  apply (failed_parse_keeps_draft chatty_endpoint sample_loads
           "2024-01-01" "Dentist" true with_draft).
  right. exists "Sure! Here is your reminder.".
  split; [reflexivity|vm_compute; reflexivity].
Defined.

Example failed_call_keeps_draft :
  parse_button_handler failing_endpoint sample_loads "2024-01-01" true
    "Dentist" with_draft = with_draft.
Proof. vm_compute. reflexivity. Qed.

End ParseExamples.

(** ** Stripping *)

Module StripFacts.
Import PyStr.

Definition strip_chars (l : list ascii) : list ascii :=
  List.rev (lstrip_chars (List.rev (lstrip_chars l))).

Lemma strip_eq (s : string) :
  strip s = string_of_list_ascii (strip_chars (list_ascii_of_string s)).
Proof. reflexivity. Qed.

Lemma lstrip_all (l : list ascii) :
  forallb isspace l = true -> lstrip_chars l = [].
Proof.
  induction l as [|c l IH]; simpl; [reflexivity|].
  intros H. apply andb_true_iff in H as [-> H]. auto.
Qed.

Lemma lstrip_idem (l : list ascii) :
  lstrip_chars (lstrip_chars l) = lstrip_chars l.
Proof.
  induction l as [|c l IH]; simpl; [reflexivity|].
  destruct (isspace c) eqn:E; [exact IH|]. simpl. rewrite E. reflexivity.
Qed.

Lemma lstrip_head (c : ascii) (l : list ascii) :
  isspace c = false -> lstrip_chars (c :: l) = c :: l.
Proof. intros E. simpl. rewrite E. reflexivity. Qed.

Lemma lstrip_starts (l : list ascii) (c : ascii) (m : list ascii) :
  lstrip_chars l = c :: m -> isspace c = false.
Proof.
  induction l as [|x l IH]; simpl; [discriminate|].
  destruct (isspace x) eqn:E; [exact IH|].
  intros H. injection H as <- _. exact E.
Qed.

Lemma lstrip_snoc (a : list ascii) (c : ascii) :
  isspace c = false -> exists t, lstrip_chars (a ++ [c]) = t ++ [c].
Proof.
  intros E. induction a as [|x a IH]; simpl.
  - rewrite E. exists []. reflexivity.
  - destruct (isspace x); [exact IH|]. exists (x :: a). reflexivity.
Qed.

(** A list that neither starts nor ends with white space. *)
Definition clean (l : list ascii) : Prop :=
  lstrip_chars l = l /\ lstrip_chars (List.rev l) = List.rev l.

Lemma clean_fixed (l : list ascii) : clean l -> strip_chars l = l.
Proof.
  intros [H1 H2]. unfold strip_chars. rewrite H1, H2. apply rev_involutive.
Qed.

Lemma strip_chars_clean (l : list ascii) : clean (strip_chars l).
Proof.
  unfold clean, strip_chars. rewrite rev_involutive, lstrip_idem.
  split; [|reflexivity].
  destruct (lstrip_chars l) as [|c m] eqn:Em; [reflexivity|].
  pose proof (lstrip_starts _ _ _ Em) as Ec.
  simpl List.rev. destruct (lstrip_snoc (List.rev m) c Ec) as [t Ht].
  rewrite Ht, rev_app_distr. simpl. rewrite Ec. reflexivity.
Qed.

Lemma strip_chars_idem (l : list ascii) :
  strip_chars (strip_chars l) = strip_chars l.
Proof. apply clean_fixed, strip_chars_clean. Qed.

Lemma strip_idem (s : string) : strip (strip s) = strip s.
Proof.
  rewrite !strip_eq, list_ascii_of_string_of_list_ascii, strip_chars_idem.
  reflexivity.
Qed.

Lemma strip_all_space (s : string) :
  forallb isspace (list_ascii_of_string s) = true -> strip s = EmptyString.
Proof.
  intros H. rewrite strip_eq. unfold strip_chars.
  rewrite (lstrip_all _ H). reflexivity.
Qed.

End StripFacts.

(** ** Saving from the form *)

Section SaveHandler.
Import Csv CsvFacts ColumnFacts StoreFacts.

Lemma save_button_handler_eq (st : state)
    (user_input title0 category0 date0 time0 priority0 notes0 now : string) :
  PyStr.truthy (PyStr.strip title0) = true ->
  save_button_handler user_input title0 category0 date0 time0 priority0
    notes0 now st
  = mk_state
      (csv_file
         (save_reminder_to_csv
            (reminder_data_of_form (List.length (load_reminders st))
               user_input title0 category0 date0 time0 priority0 now) st))
      (mk_session None JNull (api_enabled (session st))).
Proof. intros Ht. unfold save_button_handler. rewrite Ht. reflexivity. Qed.

Lemma load_save_button_handler (st : state)
    (user_input title0 category0 date0 time0 priority0 notes0 now : string) :
  PyStr.truthy (PyStr.strip title0) = true ->
  load_reminders
    (save_button_handler user_input title0 category0 date0 time0 priority0
       notes0 now st)
  = read_csv
      (to_csv
         (load_reminders st
          ++ [new_reminder
                (reminder_data_of_form (List.length (load_reminders st))
                   user_input title0 category0 date0 time0 priority0 now)])).
Proof.
  intros Ht. rewrite (save_button_handler_eq _ _ _ _ _ _ _ _ _ Ht).
  reflexivity.
Qed.

(** X1: a title made of white space only is rejected: the handler
    returns the state it was given, so nothing is written and the draft
    stays. *)
Theorem blank_title_is_rejected (st : state)
    (user_input title0 category0 date0 time0 priority0 notes0 now : string) :
  forallb PyStr.isspace (list_ascii_of_string title0) = true ->
  save_button_handler user_input title0 category0 date0 time0 priority0
    notes0 now st = st.
Proof.
  intros H. unfold save_button_handler.
  rewrite (StripFacts.strip_all_space _ H). reflexivity.
Qed.

Lemma blank_title_is_rejected_witness :
  save_button_handler "call the bank" "   " "task" "" "" "Medium" ""
    "2024-01-02T08:00:00" with_draft = with_draft.
Proof.
  apply (blank_title_is_rejected with_draft "call the bank" "   " "task" "" ""
           "Medium" "" "2024-01-02T08:00:00").
  reflexivity.
Defined.

(** X2: a save with a title adds one row at the end of what is loaded;
    that row is pending, has no notes whatever was typed in the notes
    field, and has no date (no time) when the date (time) field is blank;
    the draft of the session is dropped. *)
Theorem save_adds_pending_row (st : state)
    (user_input title0 category0 date0 time0 priority0 notes0 now : string) :
  PyStr.truthy (PyStr.strip title0) = true ->
  let st' := save_button_handler user_input title0 category0 date0 time0
               priority0 notes0 now st in
  List.length (load_reminders st') = S (List.length (load_reminders st)) /\
  (exists r,
     nth_error (load_reminders st') (List.length (load_reminders st)) = Some r /\
     get status r = VStr "pending" /\
     get notes r = VNaN /\
     (PyStr.truthy (PyStr.strip date0) = false -> get date r = VNaN) /\
     (PyStr.truthy (PyStr.strip time0) = false -> get time r = VNaN)) /\
  parsed_reminder (session st') = JNull.
Proof.
  intros Ht. cbv zeta. rewrite (load_save_button_handler _ _ _ _ _ _ _ _ _ Ht).
  split; [|split].
  - rewrite length_read_csv, length_to_csv, length_app. simpl. lia.
  - eexists. split; [apply read_last|].
    rewrite !get_tabulate. repeat split.
    + apply (read_anchor _ (VStr "pending")). reflexivity.
    + intros Hd. cbn. rewrite Hd. reflexivity.
    + intros Hd. cbn. rewrite Hd. reflexivity.
  - rewrite (save_button_handler_eq _ _ _ _ _ _ _ _ _ Ht). reflexivity.
Qed.

Lemma save_adds_pending_row_witness :
  List.length (load_reminders two_saved)
  = S (List.length (load_reminders one_saved)) /\
  (exists r,
     nth_error (load_reminders two_saved) (List.length (load_reminders one_saved))
     = Some r /\
     get status r = VStr "pending" /\
     get notes r = VNaN /\
     (PyStr.truthy (PyStr.strip "") = false -> get date r = VNaN) /\
     (PyStr.truthy (PyStr.strip "") = false -> get time r = VNaN)) /\
  parsed_reminder (session two_saved) = JNull.
Proof.
  exact (save_adds_pending_row one_saved "call the bank" "Call the bank" "task"
           "" "" "Medium" "" "2024-01-02T08:00:00" eq_refl).
Defined.

End SaveHandler.

(** ** More on updating the status *)

Section UpdateMore.
Import Csv CsvFacts ColumnFacts StoreFacts.

(** One cell written and read in a column of kind [k]. *)
Definition norm (k : bool) (v : value) : value := read_cell k (write_cell v).

Lemma norm_class (k : bool) (v : value) :
  is_na (write_cell (norm k v)) || is_int (write_cell (norm k v))
  = is_na (write_cell v) || is_int (write_cell v).
Proof.
  unfold norm, read_cell.
  destruct (is_na (write_cell v)) eqn:Ena; [reflexivity|].
  destruct k.
  - unfold is_int at 2. destruct (int_literal (write_cell v)) as [z|] eqn:Ez.
    + simpl. rewrite is_int_of_Z, orb_true_r. reflexivity.
    + simpl. rewrite Ena. unfold is_int. rewrite Ez. reflexivity.
  - simpl. rewrite Ena. reflexivity.
Qed.

Lemma norm_idem (k : bool) (v : value) : norm k (norm k v) = norm k v.
Proof.
  unfold norm, read_cell.
  destruct (is_na (write_cell v)) eqn:Ena; [reflexivity|].
  destruct k.
  - destruct (int_literal (write_cell v)) as [z|] eqn:Ez.
    + simpl. rewrite is_na_of_Z, int_literal_of_Z. reflexivity.
    + simpl. rewrite Ena, Ez. reflexivity.
  - simpl. rewrite Ena. reflexivity.
Qed.

(** A column in which some cells were replaced by what they are read
    as is read as the column was. *)
Lemma reread_normed (w w' : list value) :
  Forall2 (fun a b => b = a \/ b = norm (numeric_col (map write_cell w)) a) w w' ->
  reread w' = reread w.
Proof.
  intros H. set (k := numeric_col (map write_cell w)) in *.
  assert (Hk : numeric_col (map write_cell w') = k).
  { unfold k, numeric_col. clearbody k.
    induction H as [|a b w w' Hab _ IH]; [reflexivity|].
    simpl. rewrite IH. f_equal.
    destruct Hab as [-> | ->]; [reflexivity|apply norm_class]. }
  unfold reread. rewrite Hk. fold k. clearbody k. clear Hk.
  induction H as [|a b w w' Hab _ IH]; [reflexivity|].
  simpl. rewrite IH. f_equal.
  destruct Hab as [-> | ->]; [reflexivity|apply norm_idem].
Qed.

Lemma Forall2_maps {A B} (R : B -> B -> Prop) (f1 f2 : A -> B) (l : list A) :
  (forall x, In x l -> R (f1 x) (f2 x)) -> Forall2 R (map f1 l) (map f2 l).
Proof.
  induction l as [|x l IH]; simpl; intros H; constructor; auto.
Qed.

Lemma roundtrip_rows (h : frame) :
  read_csv (to_csv h)
  = map (fun r => tabulate (fun c =>
           norm (numeric_col (map write_cell (col c h))) (get c r))) h.
Proof.
  unfold read_csv, to_csv at 2. rewrite map_map. apply map_ext.
  intros r. apply row_ext. intros c. rewrite !get_tabulate.
  rewrite col_to_csv, get_row_map. reflexivity.
Qed.

Lemma reread_fixed_cells (vs : list value) :
  reread vs = vs ->
  Forall (fun v => norm (numeric_col (map write_cell vs)) v = v) vs.
Proof.
  unfold reread, norm. set (k := numeric_col (map write_cell vs)). clearbody k.
  induction vs as [|v vs IH]; simpl; intros H; constructor.
  - congruence.
  - apply IH. congruence.
Qed.

Lemma load_after_update (id s : value) (st : state) :
  load_reminders (update_reminder_status id s st)
  = read_csv (to_csv (set_status id s (load_reminders st))).
Proof. reflexivity. Qed.

(** X3: for every identifier, new status and store,
    [update_reminder_status] keeps the number of rows and every column
    other than [status] as they were loaded before. *)
Theorem update_keeps_other_columns (id s : value) (st : state) :
  List.length (load_reminders (update_reminder_status id s st))
  = List.length (load_reminders st) /\
  forall c, c <> status ->
    col c (load_reminders (update_reminder_status id s st))
    = col c (load_reminders st).
Proof.
  rewrite load_after_update. split.
  - rewrite length_read_csv, length_to_csv. unfold set_status. apply length_map.
  - intros c Hc. rewrite col_reread, (col_set_status_other _ _ _ _ Hc).
    apply loaded_col_stable.
Qed.

(** X4: updating twice with the same identifier and status gives what
    updating once gives, for every identifier, status and store. *)
Theorem update_twice_is_once (id s : value) (st : state) :
  load_reminders (update_reminder_status id s (update_reminder_status id s st))
  = load_reminders (update_reminder_status id s st).
Proof.
  set (st1 := update_reminder_status id s st).
  rewrite (load_after_update id s st1).
  apply frame_ext. intros c. rewrite col_reread.
  destruct (column_eqb c status) eqn:Ec.
  - apply column_eqb_eq in Ec. subst c.
    unfold st1. rewrite load_after_update.
    set (h := set_status id s (load_reminders st)).
    rewrite col_reread. rewrite roundtrip_rows.
    apply reread_normed. rewrite col_set_status. unfold col at 2.
    match goal with
    | |- Forall2 _ _ (map ?f (map ?g ?l)) => rewrite (map_map g f l)
    end.
    apply Forall2_maps. intros r Hr.
    rewrite get_tabulate.
    assert (Hid : get reminder_id
                    (tabulate (fun c => norm (numeric_col (map write_cell (col c h)))
                                          (get c r)))
                  = get reminder_id r).
    { rewrite get_tabulate.
      assert (Hst : reread (col reminder_id h) = col reminder_id h).
      { unfold h. rewrite col_set_status_other by discriminate.
        apply loaded_col_stable. }
      pose proof (reread_fixed_cells _ Hst) as Hf.
      rewrite Forall_forall in Hf. apply Hf. unfold col. apply in_map, Hr. }
    unfold matches. rewrite Hid.
    destruct (py_eq (get reminder_id r) id) eqn:Em; [|right; reflexivity].
    left. unfold h, set_status in Hr. apply in_map_iff in Hr as [r0 [Hr0 _]].
    destruct (py_eq (get reminder_id r0) id) eqn:Em0.
    + subst r. symmetry. apply get_set_same.
    + subst r. congruence.
  - assert (c <> status) as Hc
      by (intros ->; rewrite column_eqb_refl in Ec; discriminate Ec).
    rewrite (col_set_status_other _ _ _ _ Hc). apply loaded_col_stable.
Qed.

End UpdateMore.

(** ** Appending and the rows stored before *)

Section AppendMore.
Import Csv CsvFacts ColumnFacts StoreFacts.

Lemma loaded_col_kinds (st : state) (c : column) :
  forallb numeric_cell (col c (load_reminders st)) = true \/
  (forallb text_cell (col c (load_reminders st)) = true
   /\ existsb anchor (col c (load_reminders st)) = true).
Proof.
  unfold load_reminders. destruct (csv_file st) as [t|]; [|left; reflexivity].
  rewrite col_read_csv. apply read_shape.
Qed.

Lemma numeric_like_written (v : value) :
  numeric_like v = true -> is_na (write_cell v) || is_int (write_cell v) = true.
Proof.
  destruct v; simpl; auto. intros _. rewrite is_int_of_Z. apply orb_true_r.
Qed.

Lemma no_int_all_missing (vs : list value) :
  forallb numeric_cell vs = true -> has_int vs = false ->
  Forall (fun v => v = VNaN) vs.
Proof.
  unfold has_int. induction vs as [|v vs IH]; simpl; intros Hn Hi; constructor.
  - destruct v; try discriminate; reflexivity.
  - apply andb_true_iff in Hn as [_ Hn]. apply orb_false_iff in Hi as [_ Hi].
    auto.
Qed.

(** The cells of a loaded column are read as they are when a cell that
    fits the column is written after them. *)
Lemma earlier_cells_kept (st : state) (c : column) (v : value) :
  (has_int (col c (load_reminders st)) = true -> numeric_like v = true) ->
  map (fun x => read_cell
                  (numeric_col (map write_cell (col c (load_reminders st) ++ [v])))
                  (write_cell x))
      (col c (load_reminders st))
  = col c (load_reminders st).
Proof.
  intros Hv. pose proof (loaded_col_kinds st c) as Hk.
  set (vs := col c (load_reminders st)) in *.
  apply map_fixed, Forall_forall. intros x Hx.
  destruct Hk as [Hn | [Ht Ha]].
  - destruct (has_int vs) eqn:Hi.
    + assert (K : numeric_col (map write_cell (vs ++ [v])) = true).
      { unfold numeric_col. rewrite map_app, forallb_app.
        fold (numeric_col (map write_cell vs)).
        rewrite (numeric_col_written _ (numeric_cell_writes _ Hn)).
        simpl. rewrite (numeric_like_written _ (Hv eq_refl)). reflexivity. }
      rewrite K. apply read_write_numeric.
      rewrite forallb_forall in Hn. auto.
    + pose proof (no_int_all_missing _ Hn Hi) as Hm.
      rewrite Forall_forall in Hm. rewrite (Hm x Hx).
      destruct (numeric_col _); reflexivity.
  - rewrite numeric_col_anchored.
    + apply read_write_text. rewrite forallb_forall in Ht. auto.
    + rewrite existsb_app, Ha. reflexivity.
Qed.

(** X5: appending a row leaves the rows stored before as they were
    loaded, and adds one row after them, for a store whose columns are
    read as they are modelled (integers of 64 bits and missing cells
    only, or texts one of which is neither a number nor a truth value),
    provided every column that holds an integer receives such an
    integer.  A text
    written into a column of numbers turns the numbers stored before
    into texts, and a missing value written into a column of integers
    turns the integers into floating point numbers. *)
Theorem append_keeps_earlier_rows (reminder_data : list (string * value))
    (st : state) :
  (forall c, faithful_col (col c (load_reminders st)) = true) ->
  (forall c, has_int (col c (load_reminders st)) = true ->
             is_int64 (get c (new_reminder reminder_data)) = true) ->
  exists r,
    load_reminders (save_reminder_to_csv reminder_data st)
    = load_reminders st ++ [r].
Proof.
  intros _ H. rewrite load_save.
  set (f := load_reminders st) in *. set (n := new_reminder reminder_data) in *.
  exists (tabulate (fun c =>
            read_cell (numeric_col (map write_cell (col c f ++ [get c n])))
                      (write_cell (get c n)))).
  apply frame_ext. intros c.
  rewrite col_reread, !col_app. unfold reread. rewrite map_app.
  change (col c [n]) with [get c n]. f_equal.
  - apply earlier_cells_kept. intros Hc. specialize (H c Hc).
    destruct (get c n); try discriminate H; reflexivity.
  - simpl. rewrite get_tabulate. reflexivity.
Qed.

Lemma append_keeps_earlier_rows_witness :
  (forall c, faithful_col (col c (load_reminders two_saved)) = true) /\
  (forall c, has_int (col c (load_reminders two_saved)) = true ->
             is_int64 (get c (new_reminder empty_notes_row)) = true) /\
  exists r,
    load_reminders (save_reminder_to_csv empty_notes_row two_saved)
    = load_reminders two_saved ++ [r].
Proof.
  assert (H1 : forall c,
             faithful_col (col c (load_reminders two_saved)) = true)
    by (intros c; destruct c; vm_compute; reflexivity).
  assert (H2 : forall c,
             has_int (col c (load_reminders two_saved)) = true ->
             is_int64 (get c (new_reminder empty_notes_row)) = true)
    by (intros c; destruct c; vm_compute; intros H;
        first [reflexivity | discriminate H]).
  split; [exact H1|]. split; [exact H2|].
  exact (append_keeps_earlier_rows empty_notes_row two_saved H1 H2).
Defined.

End AppendMore.

(** ** The states the application reaches *)

Section AppStates.
Import Csv CsvFacts ColumnFacts StoreFacts.

(** The status a click on the button of a row writes. *)
Definition flipped (reminder : row value) : string :=
  if py_eq (get status reminder) (VStr "completed") then "pending"
  else "completed".

Lemma row_button_click_eq (reminder : row value) (st : state) :
  row_button_click reminder st
  = update_reminder_status (get reminder_id reminder)
      (VStr (flipped reminder)) st.
Proof.
  unfold row_button_click, flipped.
  destruct (py_eq (get status reminder) (VStr "completed")); reflexivity.
Qed.

Lemma flipped_anchor (reminder : row value) :
  anchor (VStr (flipped reminder)) = true.
Proof. unfold flipped. destruct (py_eq _ _); reflexivity. Qed.

Lemma flipped_valid (reminder : row value) :
  valid_status (VStr (flipped reminder)).
Proof. unfold flipped, valid_status. destruct (py_eq _ _); auto. Qed.

Lemma valid_statuses_reread (vs : list value) :
  Forall valid_status vs -> reread vs = vs.
Proof.
  intros H. destruct vs as [|v vs]; [reflexivity|].
  apply reread_text; [apply valid_statuses_text, H|].
  inversion H as [|? ? [-> | ->] _]; reflexivity.
Qed.

Lemma col_load_save_handler (st : state) (c : column)
    (user_input title0 category0 date0 time0 priority0 notes0 now : string) :
  PyStr.truthy (PyStr.strip title0) = true ->
  col c (load_reminders
           (save_button_handler user_input title0 category0 date0 time0
              priority0 notes0 now st))
  = reread (col c (load_reminders st)
            ++ [get c (new_reminder
                         (reminder_data_of_form (List.length (load_reminders st))
                            user_input title0 category0 date0 time0
                            priority0 now))]).
Proof.
  intros Ht. rewrite (load_save_button_handler _ _ _ _ _ _ _ _ _ Ht).
  rewrite col_reread, col_app. reflexivity.
Qed.

Lemma load_parse_button_handler
    (generate_content : string -> option string)
    (json_loads : string -> option json)
    (today : string) (parse_button : bool) (user_input : string) (st : state) :
  load_reminders
    (parse_button_handler generate_content json_loads today parse_button
       user_input st)
  = load_reminders st.
Proof.
  unfold parse_button_handler.
  destruct (parse_button && PyStr.truthy (PyStr.strip user_input));
    [|reflexivity].
  destruct (Json.truthy _); reflexivity.
Qed.

(** What holds of the store in every state the application reaches. *)
Definition store_invariant (st : state) : Prop :=
  col reminder_id (load_reminders st)
  = first_ids (List.length (load_reminders st)) /\
  Forall valid_status (col status (load_reminders st)) /\
  Forall (fun v => v = VNaN) (col notes (load_reminders st)).

Lemma col_length {A} (c : column) (t : list (row A)) :
  List.length (col c t) = List.length t.
Proof. apply length_map. Qed.

Lemma invariant_after_save (st : state)
    (user_input title0 category0 date0 time0 priority0 notes0 now : string) :
  store_invariant st ->
  store_invariant
    (save_button_handler user_input title0 category0 date0 time0 priority0
       notes0 now st).
Proof.
  intros [Hid [Hst Hno]].
  destruct (PyStr.truthy (PyStr.strip title0)) eqn:Ht.
  - set (st' := save_button_handler user_input title0 category0 date0 time0
                  priority0 notes0 now st).
    assert (Hl : List.length (load_reminders st')
                 = S (List.length (load_reminders st))).
    { unfold st'. rewrite (load_save_button_handler _ _ _ _ _ _ _ _ _ Ht).
      rewrite length_read_csv, length_to_csv, length_app. simpl. lia. }
    split; [|split].
    + rewrite Hl, first_ids_S, <- Hid. unfold st'.
      apply save_appends_id; [exact Ht|].
      rewrite Hid. apply first_ids_numeric.
    + unfold st'. rewrite (col_load_save_handler _ status _ _ _ _ _ _ _ _ Ht).
      change (get status (new_reminder _)) with (VStr "pending").
      assert (Hv : Forall valid_status
                     (col status (load_reminders st) ++ [VStr "pending"])).
      { apply Forall_app. split; [exact Hst|].
        constructor; [left; reflexivity|constructor]. }
      rewrite (valid_statuses_reread _ Hv). exact Hv.
    + unfold st'. rewrite (col_load_save_handler _ notes _ _ _ _ _ _ _ _ Ht).
      change (get notes (new_reminder _)) with VNaN.
      assert (Hv : Forall (fun v => v = VNaN)
                     (col notes (load_reminders st) ++ [VNaN])).
      { apply Forall_app. split; [exact Hno|]. repeat constructor. }
      rewrite reread_numeric; [exact Hv|].
      apply forallb_forall. rewrite Forall_forall in Hv.
      intros v Hin. rewrite (Hv v Hin). reflexivity.
  - rewrite save_without_title by exact Ht. repeat split; assumption.
Qed.

Lemma load_after_click (reminder : row value) (st : state) :
  Forall valid_status (col status (load_reminders st)) ->
  load_reminders (row_button_click reminder st)
  = set_status (get reminder_id reminder) (VStr (flipped reminder))
      (load_reminders st).
Proof.
  intros Hst. rewrite row_button_click_eq.
  apply load_update; [apply flipped_anchor|apply valid_statuses_text, Hst].
Qed.

Lemma invariant_after_click (reminder : row value) (st : state) :
  store_invariant st -> store_invariant (row_button_click reminder st).
Proof.
  intros [Hid [Hst Hno]]. unfold store_invariant.
  rewrite (load_after_click _ _ Hst).
  rewrite (col_set_status_other _ _ _ reminder_id) by discriminate.
  rewrite (col_set_status_other _ _ _ notes) by discriminate.
  assert (Hl : List.length
                 (set_status (get reminder_id reminder)
                    (VStr (flipped reminder)) (load_reminders st))
               = List.length (load_reminders st))
    by (unfold set_status; apply length_map).
  rewrite Hl. split; [exact Hid|]. split; [|exact Hno].
  rewrite col_set_status. apply Forall_forall. intros v Hv.
  apply in_map_iff in Hv as [r [<- Hr]].
  destruct (matches _ r); [apply flipped_valid|].
  rewrite Forall_forall in Hst. apply Hst. unfold col. apply in_map, Hr.
Qed.

Lemma reached_invariant (st : state) : app_reachable st -> store_invariant st.
Proof.
  induction 1 as [s|st ui t c d tm p n now _ IH|st r _ IH _
                  |st gc jl today pb ui _ IH].
  - repeat split; constructor.
  - apply invariant_after_save, IH.
  - apply invariant_after_click, IH.
  - unfold store_invariant. rewrite load_parse_button_handler. exact IH.
Qed.

(** X6: in every state the application reaches from a missing file by
    saving, clicking the buttons of listed rows and parsing, the row at
    position [i] has the identifier [i + 1], no identifier occurs twice,
    every status is pending or completed, no row has notes, and the
    total of the summary is the sum of its pending and completed
    counts. *)
Theorem reached_store_is_well_formed (st : state) :
  app_reachable st ->
  (forall i r, nth_error (load_reminders st) i = Some r ->
               get reminder_id r = VInt (Z.of_nat i + 1)) /\
  NoDup (col reminder_id (load_reminders st)) /\
  (forall r, In r (load_reminders st) ->
             valid_status (get status r) /\ get notes r = VNaN) /\
  total (load_reminders st)
  = (pending (load_reminders st) + completed (load_reminders st))%nat.
Proof.
  intros Hr. destruct (reached_invariant st Hr) as [Hid [Hst Hno]].
  split; [|split; [|split]].
  - intros i r Hi. apply (first_ids_nth (List.length (load_reminders st)) i).
    rewrite <- Hid. unfold col. rewrite nth_error_map, Hi. reflexivity.
  - rewrite Hid. apply first_ids_NoDup.
  - intros r Hin. rewrite Forall_forall in Hst, Hno. split.
    + apply Hst. unfold col. apply in_map, Hin.
    + apply Hno. unfold col. apply in_map, Hin.
  - pose proof (total_split (load_reminders st)) as Ht.
    assert (Ho : others (load_reminders st) = 0%nat).
    { apply others_zero_statuses. apply Forall_forall. intros r Hin.
      rewrite Forall_forall in Hst. apply (Hst (get status r)).
      unfold col. apply in_map, Hin. }
    lia.
Qed.

End AppStates.

(** ** Clicking the button of a row *)

Section Click.
Import Csv CsvFacts ColumnFacts StoreFacts.

Lemma set_status_none (id s : value) (l : frame) :
  (forall x, In x l -> matches id x = false) -> set_status id s l = l.
Proof.
  intros H. apply set_status_unmatched.
  destruct (existsb (matches id) l) eqn:E; [|reflexivity].
  apply existsb_exists in E as [x [Hx Hm]]. rewrite (H x Hx) in Hm.
  discriminate Hm.
Qed.

Lemma set_status_app (id s : value) (l1 l2 : frame) :
  set_status id s (l1 ++ l2) = set_status id s l1 ++ set_status id s l2.
Proof. apply map_app. Qed.

Lemma py_eq_ids (i j : nat) :
  py_eq (VInt (Z.of_nat j + 1)) (VInt (Z.of_nat i + 1)) = Nat.eqb j i.
Proof.
  simpl. destruct (Nat.eqb_spec j i) as [-> | Hn].
  - apply Z.eqb_refl.
  - apply Z.eqb_neq. lia.
Qed.

Lemma load_after_click_at (st : state) (i : nat) (r : row value) :
  app_reachable st ->
  nth_error (load_reminders st) i = Some r ->
  load_reminders (row_button_click r st)
  = firstn i (load_reminders st)
    ++ set status (VStr (flipped r)) r :: skipn (S i) (load_reminders st).
Proof.
  intros Hr Hi. destruct (reached_invariant st Hr) as [Hid [Hst _]].
  rewrite (load_after_click _ _ Hst).
  assert (Hids : forall j x, nth_error (load_reminders st) j = Some x ->
                             get reminder_id x = VInt (Z.of_nat j + 1)).
  { intros j x Hj. apply (first_ids_nth (List.length (load_reminders st)) j).
    rewrite <- Hid. unfold col. rewrite nth_error_map, Hj. reflexivity. }
  rewrite (Hids i r Hi).
  destruct (nth_error_split _ _ Hi) as [l1 [l2 [Hl Hlen]]].
  rewrite Hl in Hids |- *. clear Hl.
  rewrite set_status_app.
  change (set_status (VInt (Z.of_nat i + 1)) (VStr (flipped r)) (r :: l2))
    with ((if py_eq (get reminder_id r) (VInt (Z.of_nat i + 1))
           then set status (VStr (flipped r)) r else r)
          :: set_status (VInt (Z.of_nat i + 1)) (VStr (flipped r)) l2).
  rewrite firstn_app, <- Hlen, Nat.sub_diag, firstn_all. simpl firstn.
  rewrite app_nil_r.
  replace (skipn (S (List.length l1)) (l1 ++ r :: l2)) with l2
    by (rewrite skipn_app, skipn_all2 by lia;
        replace (S (List.length l1) - List.length l1)%nat with 1%nat by lia;
        reflexivity).
  f_equal; [|f_equal].
  - apply set_status_none. intros x Hx.
    apply In_nth_error in Hx as [j Hj].
    assert (j < List.length l1)%nat by (apply nth_error_Some; congruence).
    unfold matches. rewrite (Hids j x), py_eq_ids.
    + apply Nat.eqb_neq. lia.
    + rewrite nth_error_app1 by lia. exact Hj.
  - rewrite (Hids (List.length l1) r), py_eq_ids, Nat.eqb_refl.
    + reflexivity.
    + rewrite nth_error_app2, Nat.sub_diag by lia. reflexivity.
  - apply set_status_none. intros x Hx.
    apply In_nth_error in Hx as [j Hj].
    unfold matches. rewrite (Hids (S (List.length l1) + j)%nat x), py_eq_ids.
    + apply Nat.eqb_neq. lia.
    + rewrite nth_error_app2 by lia.
      replace (S (List.length l1) + j - List.length l1)%nat with (S j) by lia.
      exact Hj.
Qed.

(** X7: in a state the application reaches, a click on the button of
    the row at position [i] changes that row only: its status becomes
    pending if it was completed and completed otherwise, and every other
    row, before and after it, stays as it was. *)
Theorem click_flips_one_row (st : state) (i : nat) (r : row value) :
  app_reachable st ->
  nth_error (load_reminders st) i = Some r ->
  load_reminders (row_button_click r st)
  = firstn i (load_reminders st)
    ++ set status
         (VStr (if py_eq (get status r) (VStr "completed")
                then "pending" else "completed")) r
       :: skipn (S i) (load_reminders st).
Proof. intros Hr Hi. apply (load_after_click_at st i r Hr Hi). Qed.

Lemma two_saved_app_reachable : app_reachable two_saved.
Proof.
  unfold two_saved, one_saved, no_file. do 2 apply app_save. apply app_no_file.
Defined.

Lemma click_flips_one_row_witness :
  col status
    (load_reminders
       (row_button_click
          (mk_row (VInt 2) (VStr "call the bank") (VStr "Call the bank")
             (VStr "task") VNaN VNaN (VStr "Medium") VNaN (VStr "pending")
             (VStr "2024-01-02T08:00:00")) two_saved))
  = [VStr "pending"; VStr "completed"].
Proof.
  rewrite (click_flips_one_row two_saved 1
             (mk_row (VInt 2) (VStr "call the bank") (VStr "Call the bank")
                (VStr "task") VNaN VNaN (VStr "Medium") VNaN (VStr "pending")
                (VStr "2024-01-02T08:00:00"))
             two_saved_app_reachable).
  - vm_compute. reflexivity.
  - vm_compute. reflexivity.
Defined.

Lemma reached_store_is_well_formed_witness :
  NoDup (col reminder_id (load_reminders two_saved)) /\
  total (load_reminders two_saved)
  = (pending (load_reminders two_saved) + completed (load_reminders two_saved))%nat.
Proof.
  pose proof (reached_store_is_well_formed two_saved two_saved_app_reachable)
    as [_ [Hn [_ Ht]]].
  split; [exact Hn|exact Ht].
Defined.

End Click.

(** ** The text handed to the decoder *)

Module SplitFacts.
Import PyStr.

Definition fence : string := "```".

Lemma prefix_fence_other (c : ascii) (s : string) :
  negb (Ascii.eqb c "`") = true -> String.prefix fence (String c s) = false.
Proof.
  intros H. apply negb_true_iff, Ascii.eqb_neq in H.
  change (String.prefix fence (String c s))
    with (if ascii_dec "`" c then String.prefix "``" s else false).
  destruct (ascii_dec "`" c) as [E|E]; [|reflexivity].
  exfalso. apply H. symmetry. exact E.
Qed.

Lemma prefix_nil (s : string) : String.prefix EmptyString s = true.
Proof. destruct s; reflexivity. Qed.

(** Up to the first backtick nothing is cut. *)
Lemma split_go_plain (inner tail : string) (cur : list ascii) :
  no_backtick inner = true ->
  split_go fence (inner ++ tail) cur 0
  = split_go fence tail (List.rev (list_ascii_of_string inner) ++ cur) 0.
Proof.
  unfold no_backtick. revert cur.
  induction inner as [|c inner IH]; intros cur H; [reflexivity|].
  simpl in H. apply andb_true_iff in H as [Hc Hi].
  change ((String c inner ++ tail)%string) with (String c (inner ++ tail)%string).
  cbn [split_go]. rewrite (prefix_fence_other c _ Hc).
  rewrite (IH _ Hi). simpl. rewrite <- app_assoc. reflexivity.
Qed.

Lemma split_go_fence (rest : string) (cur : list ascii) :
  split_go fence (fence ++ rest) cur 0
  = string_of_list_ascii (List.rev cur) :: split_go fence rest [] 0.
Proof.
  unfold fence.
  change (("```" ++ rest)%string)
    with (String "`" (String "`" (String "`" rest))).
  cbn [split_go].
  change (String.prefix "```" (String "`" (String "`" (String "`" rest))))
    with (String.prefix EmptyString rest).
  rewrite prefix_nil. reflexivity.
Qed.

Lemma startswith_fence (rest : string) :
  startswith fence (fence ++ rest) = true.
Proof.
  unfold startswith, fence.
  change (String.prefix "```" ("```" ++ rest))
    with (String.prefix EmptyString rest).
  apply prefix_nil.
Qed.

Lemma rev_rev_string (s : string) :
  string_of_list_ascii (List.rev (List.rev (list_ascii_of_string s) ++ [])) = s.
Proof.
  rewrite app_nil_r, rev_involutive. apply string_of_list_ascii_of_string.
Qed.

(** The piece after the opening fence. *)
Lemma second_piece (inner tail : string) :
  no_backtick inner = true ->
  tail = EmptyString \/ (exists rest, tail = (fence ++ rest)%string) ->
  nth 1 (split fence (fence ++ inner ++ tail)) EmptyString = inner.
Proof.
  intros Hi Ht. unfold split. rewrite split_go_fence.
  rewrite (split_go_plain _ _ _ Hi).
  destruct Ht as [-> | [rest ->]].
  - simpl. apply rev_rev_string.
  - rewrite split_go_fence. simpl. apply rev_rev_string.
Qed.

End SplitFacts.

Section CleanText.

(** X8: when the stripped response is an opening fence, a text without
    a backtick and then nothing or a closing fence followed by anything,
    the text handed to the decoder is that text without its language
    tag [json], stripped. *)
Theorem fenced_text_is_extracted (text inner tail : string) :
  PyStr.strip text = ("```" ++ inner ++ tail)%string ->
  no_backtick inner = true ->
  tail = EmptyString \/ (exists rest, tail = ("```" ++ rest)%string) ->
  clean_json_text text = PyStr.strip (untag inner).
Proof.
  intros Hs Hi Ht. unfold clean_json_text. cbv zeta. rewrite Hs.
  pose proof (SplitFacts.startswith_fence (inner ++ tail)) as Hf.
  pose proof (SplitFacts.second_piece inner tail Hi Ht) as Hp.
  unfold SplitFacts.fence in Hf, Hp. rewrite Hf, Hp. reflexivity.
Qed.

Lemma fenced_text_is_extracted_witness :
  clean_json_text fenced_reply
  = PyStr.strip (untag ("json" ++ nl ++ object_text ++ nl)%string).
Proof.
  apply (fenced_text_is_extracted fenced_reply
           ("json" ++ nl ++ object_text ++ nl)%string "```").
  - vm_compute. reflexivity.
  - vm_compute. reflexivity.
  - right. exists EmptyString. reflexivity.
Defined.

(** An opening fence that is never closed is taken off as well. *)
Example unclosed_fence :
  clean_json_text ("```json" ++ nl ++ object_text)%string = object_text.
Proof. vm_compute. reflexivity. Qed.

(** X9: the text handed to the decoder never starts or ends with white
    space (stripping it changes nothing), and it is the stripped
    response when that does not start with a fence. *)
Theorem cleaned_text_is_stripped (text : string) :
  PyStr.strip (clean_json_text text) = clean_json_text text /\
  (PyStr.startswith "```" (PyStr.strip text) = false ->
   clean_json_text text = PyStr.strip text).
Proof.
  unfold clean_json_text. cbv zeta.
  destruct (PyStr.startswith "```" (PyStr.strip text)).
  - split; [apply StripFacts.strip_idem|discriminate].
  - split; [apply StripFacts.strip_idem|reflexivity].
Qed.

End CleanText.

Section ParseHandler.

Variable generate_content : string -> option string.
Variable json_loads : string -> option json.

(** X10: the handler of the parse button never touches the file or the
    flag of the endpoint; an input of white space only changes nothing
    whatever the endpoint would answer; a decoded value that Python
    takes for false (an empty object, [null], 0, an empty text or list,
    [false]) changes nothing either; any other decoded value becomes the
    draft when the button was pressed on an input that is not blank. *)
Theorem parse_handler_effect (today : string) (parse_button : bool)
    (user_input : string) (st : state) :
  let parsed := parse_with_gemini generate_content json_loads today user_input in
  let st' := parse_button_handler generate_content json_loads today
               parse_button user_input st in
  csv_file st' = csv_file st /\
  api_enabled (session st') = api_enabled (session st) /\
  (forallb PyStr.isspace (list_ascii_of_string user_input) = true -> st' = st) /\
  (Json.truthy parsed = false -> st' = st) /\
  (parse_button = true ->
   PyStr.truthy (PyStr.strip user_input) = true ->
   Json.truthy parsed = true ->
   parsed_reminder (session st') = parsed).
Proof.
  cbv zeta. unfold parse_button_handler. repeat split.
  - destruct (parse_button && _); [|reflexivity].
    destruct (Json.truthy _); reflexivity.
  - destruct (parse_button && _); [|reflexivity].
    destruct (Json.truthy _); reflexivity.
  - intros H. rewrite (StripFacts.strip_all_space _ H).
    rewrite andb_false_r. reflexivity.
  - intros ->. destruct (parse_button && _); reflexivity.
  - intros -> -> ->. reflexivity.
Qed.

End ParseHandler.

Example empty_object_keeps_draft :
  parse_button_handler (fun _ => Some "{}")
    (fun text => if String.eqb text "{}" then Some (JDict []) else None)
    "2024-01-01" true "Dentist" with_draft = with_draft.
Proof. vm_compute. reflexivity. Qed.

(** ** Overdue as days pass *)

Section OverdueLater.

Variable fromisoformat : string -> option pydatetime.

Lemma date_lt_later (a b c : pydate) :
  date_lt a b -> b = c \/ date_lt b c -> date_lt a c.
Proof. unfold date_lt. intros H [<- | H']; [exact H|]. lia. Qed.

Lemma is_overdue_later (today today' : pydate) (v : value) :
  today = today' \/ date_lt today today' ->
  is_overdue fromisoformat today v = true ->
  is_overdue fromisoformat today' v = true.
Proof.
  intros Hl. destruct (absent v) eqn:Ea.
  - rewrite (is_overdue_absent _ _ _ Ea). discriminate.
  - rewrite !(is_overdue_present _ _ _ Ea).
    destruct (fromisoformat (py_str v)) as [dt|]; [|discriminate].
    rewrite !date_ltb_lt. intros H. exact (date_lt_later _ _ _ H Hl).
Qed.

Lemma filter_length_le {A} (p q : A -> bool) (l : list A) :
  (forall x, p x = true -> q x = true) ->
  (List.length (filter p l) <= List.length (filter q l))%nat.
Proof.
  intros H. induction l as [|x l IH]; simpl; [lia|].
  destruct (p x) eqn:Ep.
  - rewrite (H x Ep). simpl. lia.
  - destruct (q x); simpl; lia.
Qed.

(** X11: a date that is overdue on one day is overdue on every later
    day, and the overdue count of a collection does not go down from a
    day to a later one. *)
Theorem overdue_stays_overdue (today today' : pydate) :
  today = today' \/ date_lt today today' ->
  (forall v, is_overdue fromisoformat today v = true ->
             is_overdue fromisoformat today' v = true) /\
  (forall reminders,
     (overdue_count fromisoformat today reminders
      <= overdue_count fromisoformat today' reminders)%nat).
Proof.
  intros Hl. split.
  - intros v. apply is_overdue_later, Hl.
  - intros reminders. rewrite !overdue_count_filter.
    apply filter_length_le. intros r Hr.
    apply andb_true_iff in Hr as [Hp Ho]. rewrite Hp.
    apply (is_overdue_later _ _ _ Hl), Ho.
Qed.

End OverdueLater.

Lemma overdue_stays_overdue_witness :
  (forall v, is_overdue IsoDate.fromisoformat (mk_date 2024 1 1) v = true ->
             is_overdue IsoDate.fromisoformat (mk_date 2024 1 2) v = true) /\
  (forall reminders,
     (overdue_count IsoDate.fromisoformat (mk_date 2024 1 1) reminders
      <= overdue_count IsoDate.fromisoformat (mk_date 2024 1 2) reminders)%nat).
Proof.
  apply (overdue_stays_overdue IsoDate.fromisoformat
           (mk_date 2024 1 1) (mk_date 2024 1 2)).
  right. unfold date_lt. simpl. lia.
Defined.

(** ** What the dashboard shows *)

Section Dashboard.
Import Csv CsvFacts ColumnFacts StoreFacts.

Variable fromisoformat : string -> option pydatetime.
Variable today : pydate.
Variable to_datetime : list value -> list (option Z).
Variable argsort : list (Z * row value) -> list (Z * row value).

Hypothesis to_datetime_length :
  forall dates, List.length (to_datetime dates) = List.length dates.
Hypothesis argsort_permutation : forall l, Permutation (argsort l) l.

Definition shown_overdue (r : row value) : bool :=
  match heading_of fromisoformat today r with
  | HOverdue => true
  | _ => false
  end.

Lemma reminders_sorted_permutation (reminders : frame) :
  Permutation (reminders_sorted to_datetime argsort reminders) reminders.
Proof.
  unfold reminders_sorted, sort_values.
  eapply Permutation_trans.
  - apply Permutation_app_tail, Permutation_map, argsort_permutation.
  - eapply Permutation_trans; [apply split_by_key|].
    rewrite map_snd_combine; [apply Permutation_refl|].
    rewrite to_datetime_length. apply length_map.
Qed.

Lemma filter_length_permutation {A} (p : A -> bool) (l l' : list A) :
  Permutation l l' -> List.length (filter p l) = List.length (filter p l').
Proof.
  induction 1 as [|x l l' _ IH|x y l|l l' l'' _ IH1 _ IH2]; simpl.
  - reflexivity.
  - destruct (p x); simpl; congruence.
  - destruct (p x), (p y); reflexivity.
  - congruence.
Qed.

Lemma shown_overdue_spec (r : row value) :
  shown_overdue r
  = negb (is_completed r) && is_overdue fromisoformat today (get date r).
Proof.
  unfold shown_overdue, heading_of, is_completed.
  destruct (py_eq (get status r) (VStr "completed")); [reflexivity|].
  destruct (is_overdue fromisoformat today (get date r)); reflexivity.
Qed.

(** X12: the rows the dashboard lists under the heading OVERDUE are at
    least as many as the overdue count of the summary, and exactly as
    many when every status is pending or completed; a completed row is
    never listed as overdue. *)
Theorem overdue_headings_and_count (reminders : frame) :
  let listed := reminders_sorted to_datetime argsort reminders in
  (overdue_count fromisoformat today reminders
   <= List.length (filter shown_overdue listed))%nat /\
  (Forall (fun r => valid_status (get status r)) reminders ->
   overdue_count fromisoformat today reminders
   = List.length (filter shown_overdue listed)) /\
  (forall r, get status r = VStr "completed" ->
             heading_of fromisoformat today r = HCompleted).
Proof.
  cbv zeta.
  rewrite (filter_length_permutation shown_overdue _ _
             (reminders_sorted_permutation reminders)).
  rewrite overdue_count_filter. split; [|split].
  - apply filter_length_le. intros r Hr. rewrite shown_overdue_spec.
    apply andb_true_iff in Hr as [Hp Ho].
    rewrite (pending_not_completed r Hp), Ho. reflexivity.
  - intros Hv. f_equal. apply filter_ext_in. intros r Hin.
    rewrite shown_overdue_spec. f_equal.
    rewrite Forall_forall in Hv.
    unfold is_pending, is_completed.
    destruct (Hv r Hin) as [-> | ->]; reflexivity.
  - intros r Hr. unfold heading_of. rewrite Hr. reflexivity.
Qed.

End Dashboard.

Section DashboardExamples.

Lemma overdue_headings_and_count_witness :
  (overdue_count IsoDate.fromisoformat (mk_date 2024 2 1) sample_frame
   <= List.length
        (filter (shown_overdue IsoDate.fromisoformat (mk_date 2024 2 1))
           (reminders_sorted iso_to_datetime insertion_argsort sample_frame)))%nat /\
  (Forall (fun r => valid_status (get status r)) sample_frame ->
   overdue_count IsoDate.fromisoformat (mk_date 2024 2 1) sample_frame
   = List.length
       (filter (shown_overdue IsoDate.fromisoformat (mk_date 2024 2 1))
          (reminders_sorted iso_to_datetime insertion_argsort sample_frame))) /\
  (forall r, get status r = VStr "completed" ->
             heading_of IsoDate.fromisoformat (mk_date 2024 2 1) r = HCompleted).
Proof.
  exact (overdue_headings_and_count IsoDate.fromisoformat (mk_date 2024 2 1)
           iso_to_datetime insertion_argsort iso_to_datetime_length
           insertion_argsort_permutation sample_frame).
Defined.

Example sample_frame_overdue :
  overdue_count IsoDate.fromisoformat (mk_date 2024 2 1) sample_frame = 1%nat /\
  map (heading_of IsoDate.fromisoformat (mk_date 2024 2 1))
      (reminders_sorted iso_to_datetime insertion_argsort sample_frame)
  = [HOverdue; HPlain; HPlain; HPlain].
Proof. split; vm_compute; reflexivity. Qed.

End DashboardExamples.

(** ** The labels of the date and of the time *)

Section Labels.
Import Csv CsvFacts ColumnFacts StoreFacts.

Lemma loaded_cell_kinds (st : state) (c : column) (r : row value) :
  In r (load_reminders st) ->
  numeric_cell (get c r) = true \/ text_cell (get c r) = true.
Proof.
  intros Hr.
  assert (Hin : In (get c r) (col c (load_reminders st)))
    by (unfold col; apply in_map, Hr).
  destruct (loaded_col_shape st c) as [H|H]; rewrite forallb_forall in H;
    [left|right]; apply H, Hin.
Qed.

(** X14: for a row of the stored collection the label of a missing
    date is the text nan, not the words No date, and the label of a date
    that the file keeps as a text is that text.  The same holds of the
    time. *)
Theorem labels_of_stored_row (st : state) (r : row value) :
  In r (load_reminders st) ->
  (isna (get date r) = true -> date_label r = "nan") /\
  (isna (get time r) = true -> time_label r = "nan") /\
  (kept_text (get date r) = true -> date_label r = py_str (get date r)) /\
  (kept_text (get time r) = true -> time_label r = py_str (get time r)).
Proof.
  intros Hr. unfold date_label, time_label, label_or.
  pose proof (loaded_cell_kinds st date r Hr) as Hd.
  pose proof (loaded_cell_kinds st time r Hr) as Ht.
  repeat split.
  - destruct Hd as [H|H]; destruct (get date r); try discriminate; reflexivity.
  - destruct Ht as [H|H]; destruct (get time r); try discriminate; reflexivity.
  - destruct (get date r) as [| |z|s]; try discriminate.
    destruct s; [discriminate|reflexivity].
  - destruct (get time r) as [| |z|s]; try discriminate.
    destruct s; [discriminate|reflexivity].
Qed.

Lemma labels_of_stored_row_witness :
  map date_label (load_reminders two_saved) = ["2024-01-05"; "nan"] /\
  map time_label (load_reminders two_saved) = ["15:00"; "nan"].
Proof.
  assert (H1 : In (mk_row (VInt 1) (VStr "Dentist on Friday at 3pm")
                     (VStr "Dentist") (VStr "appointment") (VStr "2024-01-05")
                     (VStr "15:00") (VStr "High") VNaN (VStr "pending")
                     (VStr "2024-01-01T09:30:00"))
                  (load_reminders two_saved))
    by (rewrite load_two_saved; left; reflexivity).
  assert (H2 : In (mk_row (VInt 2) (VStr "call the bank") (VStr "Call the bank")
                     (VStr "task") VNaN VNaN (VStr "Medium") VNaN
                     (VStr "pending") (VStr "2024-01-02T08:00:00"))
                  (load_reminders two_saved))
    by (rewrite load_two_saved; right; left; reflexivity).
  destruct (labels_of_stored_row two_saved _ H1) as [_ [_ [D1 T1]]].
  destruct (labels_of_stored_row two_saved _ H2) as [D2 [T2 _]].
  rewrite load_two_saved. simpl map.
  rewrite (D1 eq_refl), (T1 eq_refl), (D2 eq_refl), (T2 eq_refl).
  split; reflexivity.
Defined.

End Labels.

(** ** The summary after a click and after a save *)

Section SummaryAfter.
Import Csv CsvFacts ColumnFacts StoreFacts.

Lemma firstn_length_app {A} (l1 l2 : list A) :
  firstn (List.length l1) (l1 ++ l2) = l1.
Proof. induction l1 as [|x l1 IH]; simpl; [destruct l2; reflexivity|congruence]. Qed.

Lemma skipn_length_app {A} (l1 : list A) (x : A) (l2 : list A) :
  skipn (S (List.length l1)) (l1 ++ x :: l2) = l2.
Proof. induction l1 as [|y l1 IH]; simpl; [reflexivity|exact IH]. Qed.

Lemma count_split {A} (p : A -> bool) (l1 : list A) (x : A) (l2 : list A) :
  List.length (filter p (l1 ++ x :: l2))
  = (List.length (filter p l1) + (if p x then 1 else 0)
     + List.length (filter p l2))%nat.
Proof.
  rewrite filter_app, length_app. simpl. destruct (p x); simpl; lia.
Qed.

(** X15: in a state the application reaches, a click on the button of
    a pending row moves one reminder from the pending count to the
    completed count, a click on the button of a completed row moves one
    back, and the total does not change. *)
Theorem click_moves_one_count (st : state) (i : nat) (r : row value) :
  app_reachable st ->
  nth_error (load_reminders st) i = Some r ->
  let before := load_reminders st in
  let after := load_reminders (row_button_click r st) in
  total after = total before /\
  (get status r = VStr "pending" ->
   pending before = S (pending after)
   /\ completed after = S (completed before)) /\
  (get status r = VStr "completed" ->
   pending after = S (pending before)
   /\ completed before = S (completed after)).
Proof.
  intros Hr Hi. cbv zeta.
  rewrite (load_after_click_at st i r Hr Hi).
  remember (load_reminders st) as l eqn:El. clear El.
  destruct (nth_error_split l i Hi) as [l1 [l2 [-> <-]]].
  rewrite firstn_length_app, skipn_length_app.
  unfold total, pending, completed. rewrite !count_split, !length_app.
  rewrite !get_set_same. simpl List.length.
  split; [lia|]. split; intros Hs; unfold flipped; rewrite Hs; simpl; lia.
Qed.

Lemma click_moves_one_count_witness :
  pending (load_reminders two_saved)
  = S (pending
         (load_reminders
            (row_button_click
               (mk_row (VInt 2) (VStr "call the bank") (VStr "Call the bank")
                  (VStr "task") VNaN VNaN (VStr "Medium") VNaN (VStr "pending")
                  (VStr "2024-01-02T08:00:00")) two_saved))).
Proof.
  assert (Hi : nth_error (load_reminders two_saved) 1
               = Some (mk_row (VInt 2) (VStr "call the bank")
                         (VStr "Call the bank") (VStr "task") VNaN VNaN
                         (VStr "Medium") VNaN (VStr "pending")
                         (VStr "2024-01-02T08:00:00")))
    by (rewrite load_two_saved; reflexivity).
  exact (proj1 (proj1 (proj2 (click_moves_one_count two_saved 1 _
                                two_saved_app_reachable Hi)) eq_refl)).
Defined.

Lemma count_by_status (s : string) (l : frame) :
  List.length (filter (fun r => py_eq (get status r) (VStr s)) l)
  = List.length (filter (fun v => py_eq v (VStr s)) (col status l)).
Proof.
  unfold col. induction l as [|r l IH]; [reflexivity|].
  cbn [map filter].
  destruct (py_eq (get status r) (VStr s)); cbn [List.length]; congruence.
Qed.

Lemma status_col_after_save (st : state)
    (user_input title0 category0 date0 time0 priority0 notes0 now : string) :
  PyStr.truthy (PyStr.strip title0) = true ->
  Forall valid_status (col status (load_reminders st)) ->
  col status
    (load_reminders
       (save_button_handler user_input title0 category0 date0 time0
          priority0 notes0 now st))
  = col status (load_reminders st) ++ [VStr "pending"].
Proof.
  intros Ht Hst. rewrite (col_load_save_handler _ status _ _ _ _ _ _ _ _ Ht).
  change (get status (new_reminder _)) with (VStr "pending").
  apply valid_statuses_reread, Forall_app. split; [exact Hst|].
  constructor; [left; reflexivity|constructor].
Qed.

(** X16: in a state the application reaches, a save with a title adds
    one to the total and one to the pending count of the summary and
    leaves the completed count as it was. *)
Theorem save_adds_one_pending (st : state)
    (user_input title0 category0 date0 time0 priority0 notes0 now : string) :
  app_reachable st ->
  PyStr.truthy (PyStr.strip title0) = true ->
  let before := load_reminders st in
  let after := load_reminders
                 (save_button_handler user_input title0 category0 date0 time0
                    priority0 notes0 now st) in
  total after = S (total before) /\
  pending after = S (pending before) /\
  completed after = completed before.
Proof.
  intros Hr Ht. cbv zeta.
  destruct (reached_invariant st Hr) as [_ [Hst _]].
  pose proof (status_col_after_save st user_input title0 category0 date0 time0
                priority0 notes0 now Ht Hst) as Hc.
  unfold total, pending, completed. rewrite !count_by_status, Hc.
  rewrite !filter_app, !length_app. simpl. split; [|split; lia].
  rewrite <- (col_length status), Hc, length_app, col_length. simpl. lia.
Qed.

Lemma save_adds_one_pending_witness :
  total (load_reminders two_saved) = S (total (load_reminders one_saved)) /\
  pending (load_reminders two_saved) = S (pending (load_reminders one_saved)) /\
  completed (load_reminders two_saved) = completed (load_reminders one_saved).
Proof.
  apply (save_adds_one_pending one_saved "call the bank" "Call the bank" "task"
           "" "" "Medium" "" "2024-01-02T08:00:00").
  - unfold one_saved, no_file. apply app_save, app_no_file.
  - reflexivity.
Defined.

End SummaryAfter.

(** ** Updates of two identifiers *)

Section Commute.
Import Csv CsvFacts ColumnFacts StoreFacts.





End Commute.
